(** * Balance consistency and derived metrics of the expense manager

    A shallow embedding of the money-movement rules of the Django project:
    [accounts/models.py] (Account, AccountTransfer), [transactions/models.py]
    (Transaction), [budgets/models.py] (Budget) and [goals/models.py]
    (FinancialGoal, GoalContribution), together with the entry points that
    reach them ([accounts/api/views.py], [accounts/api/serializers.py], the
    registered admin classes).  The second part adds the other methods of
    these models, the admin action and the list filters that read them
    ([accounts/admin.py], [budgets/admin.py], [transactions/admin.py])
    and the path of a category ([categories/models.py]).

    Modelling conventions.
    - A [decimal.Decimal] is modelled by the rational number it denotes.
      Python's [==], [<], [>=] on decimals compare values, which is [Qeq],
      [Qlt], [Qle] here.  [+], [-], [*] are exact, as Python's are while
      the result has at most 28 significant digits; [/] is the exact
      quotient, which Python rounds to 28 significant digits.
    - A table holds, for each key, the values [save] handed to the
      database.  What a column [DecimalField(max_digits=18,
      decimal_places=2)] keeps of a value is the database's doing and no
      part of the source: a value of the column is kept as it is, a
      value with more places is rounded to two, and what becomes of a
      value with more than 16 digits before the point differs from one
      database to another.  A statement that is to hold of the row as
      the database keeps it compares the row with what the object holds
      through [column_keeps], or takes the balances to be values of
      their columns ([fits]).
    - The attribute [exchange_rate] of a transfer holds a [Decimal] or a
      float ([Rate]): the field is declared with [default=1.0], and the
      product of a [Decimal] and a float raises [TypeError].
    - A [CharField] is a [string]; the code compares it with [==].
    - A model instance is a Python object: instances of [Account] live in a
      heap indexed by object identity, so that two attributes naming the
      same object, or two objects loaded from the same row, behave as in
      Python.  A table is a finite map from primary keys to rows.
    - A method that mutates state is a function in the monad [M]: it
      returns a value or raises, and what it wrote before raising stays
      written (the code opens no [transaction.atomic] block). *)

From Stdlib Require Import QArith Qabs Lqa ZArith String.
From stdpp Require Import base option gmap strings list.

Local Open Scope Q_scope.
Local Open Scope string_scope.

(** ** Decimals *)

Abbreviation Decimal := Q (only parsing).

(** [x >= y], [x > y], [x < y] and [x == y] on decimals, as booleans. *)
Definition dec_ge (x y : Decimal) : bool := Qle_bool y x.
Definition dec_gt (x y : Decimal) : bool := negb (Qle_bool x y).
Definition dec_lt (x y : Decimal) : bool := negb (Qle_bool y x).
Definition dec_eq (x y : Decimal) : bool := Qeq_bool x y.

(** [Decimal('0.01')] *)
Definition cent : Decimal := 1 # 100.

(** ** Results and the state monad *)

Inductive Exn : Type :=
| TypeError
| ValidationError
| DoesNotExist
| RelatedObjectDoesNotExist.

Inductive Result (A : Type) : Type :=
| Ok (a : A)
| Raise (e : Exn).
Arguments Ok {A} a.
Arguments Raise {A} e.

Definition M (S A : Type) : Type := S -> Result A * S.

#[global] Instance M_ret (S : Type) : MRet (M S) :=
  fun A a s => (Ok a, s).

#[global] Instance M_bind (S : Type) : MBind (M S) :=
  fun A B f m s =>
    match m s with
    | (Ok a, s') => f a s'
    | (Raise e, s') => (Raise e, s')
    end.

Definition get {S : Type} : M S S := fun s => (Ok s, s).
Definition put {S : Type} (s : S) : M S unit := fun _ => (Ok tt, s).
Definition modify {S : Type} (f : S -> S) : M S unit := fun s => (Ok tt, f s).
Definition raise {S A : Type} (e : Exn) : M S A := fun s => (Raise e, s).

(** Running a computation of a component inside a larger state. *)
Definition lift {S T A : Type} (proj : T -> S) (upd : S -> T -> T)
    (m : M S A) : M T A :=
  fun t => let (r, s') := m (proj t) in (r, upd s' t).

(** ** Field validators declared on the models *)

(** [MinValueValidator(limit)]: the value is refused when it is below the
    limit. *)
Definition MinValueValidator (limit value : Decimal) : bool :=
  negb (dec_lt value limit).

(** [DecimalField(max_digits, decimal_places)], on the value denoted: at
    most [decimal_places] places after the point and at most
    [max_digits - decimal_places] digits before it. *)
Definition DecimalField_valid (max_digits decimal_places : nat)
    (value : Decimal) : bool :=
  Z.eqb (Zpos (Qden (Qred (value * inject_Z (10 ^ Z.of_nat decimal_places))))) 1
  && dec_lt (Qabs value)
            (inject_Z (10 ^ Z.of_nat (max_digits - decimal_places))).

(** A [choices] list: the value has to be one of the listed keys. *)
Definition choice_valid (choices : list string) (value : string) : bool :=
  existsb (String.eqb value) choices.

(** * accounts/models.py *)

Module Accounts.

(** Object identity of an [Account] instance. *)
Abbreviation loc := nat (only parsing).

(** The columns of [Account]; the implicit [id] is the key of the
    table.  [description], [color], [icon] and the timestamps play no
    part in the balance rules and are left out. *)
Record Account : Type := {
  owner : Z;
  name : string;
  account_type : string;
  currency : Z;
  initial_balance : Decimal;
  current_balance : Decimal;
  is_active : bool;
}.

(** [account.current_balance = v] *)
Definition with_current_balance (v : Decimal) (a : Account) : Account :=
  {| owner := owner a; name := name a; account_type := account_type a;
     currency := currency a; initial_balance := initial_balance a;
     current_balance := v; is_active := is_active a |}.

(** An [Account] instance in memory: its primary key and its attributes. *)
Record Instance : Type := {
  pk : Z;
  attrs : Account;
}.

(** What the attribute [exchange_rate] holds on an instance: a
    [Decimal] when a form, a serializer or the database assigned it, and
    a float when the instance was built without one, the field being
    declared with [default=1.0]. *)
Inductive Rate : Type :=
| Dec (d : Decimal)
| Float (x : Q).

(** [d * rate] for a decimal [d]: the product of a [Decimal] and a float
    raises [TypeError]. *)
Definition Decimal_times {S : Type} (d : Decimal) (rate : Rate)
    : M S Decimal :=
  match rate with
  | Dec r => mret (d * r)
  | Float _ => raise TypeError
  end.

(** [AccountTransfer], with the two foreign keys of type [R]: an object
    identity for an instance, a primary key for a row. *)
Record AccountTransfer (R : Type) : Type := {
  id : option Z;
  user : Z;
  from_account : R;
  to_account : R;
  amount : Decimal;
  exchange_rate : Rate;
  converted_amount : option Decimal;
}.
Arguments id {R} _.
Arguments user {R} _.
Arguments from_account {R} _.
Arguments to_account {R} _.
Arguments amount {R} _.
Arguments exchange_rate {R} _.
Arguments converted_amount {R} _.

Definition with_converted_amount {R : Type} (v : Decimal)
    (t : AccountTransfer R) : AccountTransfer R :=
  {| id := id t; user := user t; from_account := from_account t;
     to_account := to_account t; amount := amount t;
     exchange_rate := exchange_rate t; converted_amount := Some v |}.

Definition with_id {R : Type} (k : Z) (t : AccountTransfer R)
    : AccountTransfer R :=
  {| id := Some k; user := user t; from_account := from_account t;
     to_account := to_account t; amount := amount t;
     exchange_rate := exchange_rate t;
     converted_amount := converted_amount t |}.

(** The row written for an instance whose accounts have keys [f], [t]. *)
Definition to_row (k f t : Z) (x : AccountTransfer loc)
    : AccountTransfer Z :=
  {| id := Some k; user := user x; from_account := f; to_account := t;
     amount := amount x; exchange_rate := exchange_rate x;
     converted_amount := converted_amount x |}.

Record State : Type := {
  instances : gmap nat Instance;
  account_table : gmap Z Account;
  transfer_table : gmap Z (AccountTransfer Z);
  transfer_seq : Z;
}.

Definition set_instances (h : gmap nat Instance) (s : State) : State :=
  {| instances := h; account_table := account_table s;
     transfer_table := transfer_table s; transfer_seq := transfer_seq s |}.

Definition set_account_table (m : gmap Z Account) (s : State) : State :=
  {| instances := instances s; account_table := m;
     transfer_table := transfer_table s; transfer_seq := transfer_seq s |}.

Definition set_transfers (m : gmap Z (AccountTransfer Z)) (q : Z)
    (s : State) : State :=
  {| instances := instances s; account_table := account_table s;
     transfer_table := m; transfer_seq := q |}.

(** Following a reference to an [Account] object.  A foreign key left
    unset raises when it is read. *)
Definition deref (l : loc) : M State Instance :=
  fun s =>
    match instances s !! l with
    | Some a => (Ok a, s)
    | None => (Raise RelatedObjectDoesNotExist, s)
    end.

(** [obj.current_balance = v] on the object at [l]. *)
Definition setattr_current_balance (l : loc) (v : Decimal) : M State unit :=
  a ← deref l;
  modify (fun s =>
    set_instances
      (<[l := {| pk := pk a; attrs := with_current_balance v (attrs a) |}]>
         (instances s)) s).

(** [Account.objects.get(pk=k)]: a new object holding the row. *)
Definition Account_objects_get (k : Z) : M State loc :=
  s ← get;
  match account_table s !! k with
  | None => raise DoesNotExist
  | Some row =>
      let l := fresh (dom (instances s)) in
      put (set_instances (<[l := {| pk := k; attrs := row |}]> (instances s)) s);;
      mret l
  end.

(** [Account.save()], inherited from [models.Model]: the row of the
    instance's key takes the instance's attributes, as they are handed
    to the database. *)
Definition Account_save (self : loc) : M State unit :=
  a ← deref self;
  modify (fun s =>
    set_account_table (<[pk a := attrs a]> (account_table s)) s).

(** [Account.update_balance] *)
Definition Account_update_balance (self : loc) (amount : Decimal)
    (transaction_type : string) : M State unit :=
  a ← deref self;
  (if String.eqb transaction_type "income"
   then setattr_current_balance self (current_balance (attrs a) + amount)
   else setattr_current_balance self (current_balance (attrs a) - amount));;
  Account_save self.

(** [super().save()] of [AccountTransfer]: insert with the next key of
    the sequence when the instance has none, update its row otherwise. *)
Definition AccountTransfer_super_save (self : AccountTransfer loc)
    : M State (AccountTransfer loc) :=
  f ← deref (from_account self);
  t ← deref (to_account self);
  s ← get;
  match id self with
  | Some k =>
      put (set_transfers
             (<[k := to_row k (pk f) (pk t) self]> (transfer_table s))
             (transfer_seq s) s);;
      mret self
  | None =>
      let k := transfer_seq s in
      put (set_transfers
             (<[k := to_row k (pk f) (pk t) self]> (transfer_table s))
             (k + 1)%Z s);;
      mret (with_id k self)
  end.

(** [AccountTransfer.save] *)
Definition AccountTransfer_save (self : AccountTransfer loc)
    : M State (AccountTransfer loc) :=
  converted ← Decimal_times (amount self) (exchange_rate self);
  let self := with_converted_amount converted self in
  f ← deref (from_account self);
  setattr_current_balance (from_account self)
    (current_balance (attrs f) - amount self);;
  Account_save (from_account self);;
  t ← deref (to_account self);
  setattr_current_balance (to_account self)
    (current_balance (attrs t) + converted);;
  Account_save (to_account self);;
  AccountTransfer_super_save self.

(** The writable fields of [AccountTransferSerializer], and the user of
    the request.  [exchange_rate] may be left out: the model field has a
    default, so the serializer does not require it. *)
Record TransferData : Type := {
  data_user : Z;
  data_from_account : Z;
  data_to_account : Z;
  data_amount : Decimal;
  data_exchange_rate : option Decimal;
}.

(** [serializer.is_valid()]: the checks a [ModelSerializer] derives from
    the declared fields.  The serializer declares no [validate] method. *)
Definition AccountTransferSerializer_is_valid (data : TransferData)
    (s : State) : bool :=
  bool_decide (is_Some (account_table s !! data_from_account data))
  && bool_decide (is_Some (account_table s !! data_to_account data))
  && DecimalField_valid 18 2 (data_amount data)
  && MinValueValidator cent (data_amount data)
  && match data_exchange_rate data with
     | Some rate => DecimalField_valid 18 8 rate
     | None => true
     end.

(** The attribute [exchange_rate] of the instance built from the
    validated data: the decimal of the request, or the field's default,
    the float 1.0. *)
Definition rate_of (data : TransferData) : Rate :=
  match data_exchange_rate data with
  | Some rate => Dec rate
  | None => Float 1
  end.

(** [AccountTransferViewSet.create]: validate, resolve the two primary
    keys to objects, then [perform_create] builds the instance and saves
    it. *)
Definition AccountTransferViewSet_create (data : TransferData)
    : M State (AccountTransfer loc) :=
  s ← get;
  if AccountTransferSerializer_is_valid data s then
    f ← Account_objects_get (data_from_account data);
    t ← Account_objects_get (data_to_account data);
    AccountTransfer_save
      {| id := None; user := data_user data;
         from_account := f; to_account := t;
         amount := data_amount data;
         exchange_rate := rate_of data;
         converted_amount := None |}
  else raise ValidationError.

End Accounts.


(** * transactions/models.py *)

Module Transactions.

(** [Transaction], with the foreign key [account] of type [R] (object
    identity for an instance, primary key for a row).  [id] is the UUID
    drawn when the instance is built.  [effective_amount] and
    [balance_after] are unset on a new instance.  Category, tags,
    recurrence, notes and timestamps are left out. *)
Record Transaction (R : Type) : Type := {
  id : Z;
  user : Z;
  amount : Decimal;
  transaction_type : string;
  account : R;
  status : string;
  balance_after : option Decimal;
  effective_amount : option Decimal;
}.
Arguments id {R} _.
Arguments user {R} _.
Arguments amount {R} _.
Arguments transaction_type {R} _.
Arguments account {R} _.
Arguments status {R} _.
Arguments balance_after {R} _.
Arguments effective_amount {R} _.

Definition TRANSACTION_TYPES : list string :=
  ["income"; "expense"; "transfer"].

Definition STATUS_CHOICES : list string :=
  ["pending"; "completed"; "failed"; "cancelled"].

Definition with_effective_amount {R : Type} (v : Decimal)
    (t : Transaction R) : Transaction R :=
  {| id := id t; user := user t; amount := amount t;
     transaction_type := transaction_type t; account := account t;
     status := status t; balance_after := balance_after t;
     effective_amount := Some v |}.

Definition with_balance_after {R : Type} (v : Decimal)
    (t : Transaction R) : Transaction R :=
  {| id := id t; user := user t; amount := amount t;
     transaction_type := transaction_type t; account := account t;
     status := status t; balance_after := Some v;
     effective_amount := effective_amount t |}.

(** The row written for an instance whose account has key [k]. *)
Definition to_row (k : Z) (t : Transaction Accounts.loc) : Transaction Z :=
  {| id := id t; user := user t; amount := amount t;
     transaction_type := transaction_type t; account := k;
     status := status t; balance_after := balance_after t;
     effective_amount := effective_amount t |}.

Record State : Type := {
  accounts : Accounts.State;
  transaction_table : gmap Z (Transaction Z);
}.

Definition set_accounts (a : Accounts.State) (s : State) : State :=
  {| accounts := a; transaction_table := transaction_table s |}.

Definition set_transaction_table (m : gmap Z (Transaction Z)) (s : State)
    : State :=
  {| accounts := accounts s; transaction_table := m |}.

(** A computation of [accounts/models.py] run on the whole state. *)
Definition in_accounts {A : Type} (m : M Accounts.State A) : M State A :=
  lift accounts set_accounts m.

(** [super().save()] of [Transaction]: the row of the instance's [id]
    takes the instance's attributes. *)
Definition Transaction_super_save (self : Transaction Accounts.loc)
    : M State (Transaction Accounts.loc) :=
  a ← in_accounts (Accounts.deref (account self));
  modify (fun s =>
    set_transaction_table
      (<[id self := to_row (Accounts.pk a) self]> (transaction_table s)) s);;
  mret self.

(** [Transaction.save] *)
Definition Transaction_save (self : Transaction Accounts.loc)
    : M State (Transaction Accounts.loc) :=
  let self :=
    if String.eqb (transaction_type self) "expense"
    then with_effective_amount (- amount self) self
    else with_effective_amount (amount self) self in
  in_accounts
    (Accounts.Account_update_balance (account self) (amount self)
       (transaction_type self));;
  a ← in_accounts (Accounts.deref (account self));
  let self :=
    with_balance_after (Accounts.current_balance (Accounts.attrs a)) self in
  Transaction_super_save self.

(** The editable fields of the admin form of [Transaction], and the
    UUID the new instance draws. *)
Record TransactionData : Type := {
  data_id : Z;
  data_user : Z;
  data_amount : Decimal;
  data_transaction_type : string;
  data_account : Z;
  data_status : string;
}.

(** [form.is_valid()] for the model form of [TransactionAdmin]: the
    checks [full_clean] derives from the declared fields.
    [effective_amount] and [balance_after] are read-only in the admin and
    take no part. *)
Definition TransactionForm_is_valid (data : TransactionData) (s : State)
    : bool :=
  DecimalField_valid 18 2 (data_amount data)
  && MinValueValidator cent (data_amount data)
  && choice_valid TRANSACTION_TYPES (data_transaction_type data)
  && bool_decide
       (is_Some (Accounts.account_table (accounts s) !! data_account data))
  && choice_valid STATUS_CHOICES (data_status data).

(** The add view of [TransactionAdmin]: validate the form, resolve the
    account, build the instance and save it. *)
Definition TransactionAdmin_add_view (data : TransactionData)
    : M State (Transaction Accounts.loc) :=
  s ← get;
  if TransactionForm_is_valid data s then
    l ← in_accounts (Accounts.Account_objects_get (data_account data));
    Transaction_save
      {| id := data_id data; user := data_user data;
         amount := data_amount data;
         transaction_type := data_transaction_type data;
         account := l; status := data_status data;
         balance_after := None; effective_amount := None |}
  else raise ValidationError.

End Transactions.

(** * accounts/admin.py *)

Module AccountsAdmin.

Import Transactions.

(** [sum(t.amount for t in transactions if t.transaction_type == ty)]
    over the completed transactions of account [k]. *)
Definition completed_total (ty : string) (k : Z)
    (m : gmap Z (Transaction Z)) : Decimal :=
  map_fold
    (fun _ t total =>
       if Z.eqb (account t) k && String.eqb (status t) "completed"
          && String.eqb (transaction_type t) ty
       then total + amount t else total)
    0 m.

(** The body of the loop of [recalculate_balances] for one account. *)
Definition recalculate_balance (l : Accounts.loc) : M State unit :=
  a ← in_accounts (Accounts.deref l);
  s ← get;
  let total_income :=
    completed_total "income" (Accounts.pk a) (transaction_table s) in
  let total_expense :=
    completed_total "expense" (Accounts.pk a) (transaction_table s) in
  in_accounts
    (Accounts.setattr_current_balance l
       (Accounts.initial_balance (Accounts.attrs a)
        + total_income - total_expense));;
  in_accounts (Accounts.Account_save l).

(** [recalculate_balances], on the accounts selected in the admin. *)
Fixpoint recalculate_balances (queryset : list Z) : M State unit :=
  match queryset with
  | [] => mret tt
  | k :: rest =>
      l ← in_accounts (Accounts.Account_objects_get k);
      recalculate_balance l;;
      recalculate_balances rest
  end.

End AccountsAdmin.

(** * budgets/models.py *)

Module Budgets.

(** [Budget]; period, categories and dates are left out. *)
Record Budget : Type := {
  user : Z;
  name : string;
  total_budget : Decimal;
  status : string;
  alert_threshold : string;
  custom_alert_percentage : option Decimal;
  total_spent : Decimal;
  total_income : Decimal;
}.

(** [Budget.get_spending_percentage] *)
Definition Budget_get_spending_percentage (self : Budget) : Decimal :=
  if dec_eq (total_budget self) 0 then 0
  else (total_spent self / total_budget self) * 100.

(** [Budget.get_remaining_amount] *)
Definition Budget_get_remaining_amount (self : Budget) : Decimal :=
  total_budget self - total_spent self.

(** [Budget.is_over_budget] *)
Definition Budget_is_over_budget (self : Budget) : bool :=
  dec_gt (total_spent self) (total_budget self).

(** [Budget.should_alert].  Comparing a number with [None] raises
    [TypeError]. *)
Definition Budget_should_alert (self : Budget) : Result bool :=
  let percentage := Budget_get_spending_percentage self in
  if String.eqb (alert_threshold self) "80_percent" then
    Ok (dec_ge percentage 80)
  else if String.eqb (alert_threshold self) "90_percent" then
    Ok (dec_ge percentage 90)
  else if String.eqb (alert_threshold self) "100_percent" then
    Ok (dec_ge percentage 100)
  else if String.eqb (alert_threshold self) "custom" then
    match custom_alert_percentage self with
    | Some c => Ok (dec_ge percentage c)
    | None => Raise TypeError
    end
  else Ok false.

(** The threshold of a budget in the words of the specification: 80
    for '80_percent', 90 for '90_percent', 100 for '100_percent', the
    custom percentage for 'custom'; none otherwise. *)
Definition configured_threshold (self : Budget) : option Decimal :=
  if String.eqb (alert_threshold self) "80_percent" then Some 80
  else if String.eqb (alert_threshold self) "90_percent" then Some 90
  else if String.eqb (alert_threshold self) "100_percent" then Some 100
  else if String.eqb (alert_threshold self) "custom"
       then custom_alert_percentage self
  else None.

End Budgets.

(** * goals/models.py *)

Module Goals.

(** [FinancialGoal]; type, priority, dates, account and category are left
    out. *)
Record FinancialGoal : Type := {
  user : Z;
  name : string;
  target_amount : Decimal;
  current_amount : Decimal;
  status : string;
}.

(** [GoalContribution]; [goal] and [account] are primary keys. *)
Record GoalContribution : Type := {
  id : option Z;
  goal : Z;
  amount : Decimal;
  contribution_type : string;
  account : Z;
}.

Definition with_id (k : Z) (c : GoalContribution) : GoalContribution :=
  {| id := Some k; goal := goal c; amount := amount c;
     contribution_type := contribution_type c; account := account c |}.

Record State : Type := {
  goal_table : gmap Z FinancialGoal;
  contribution_table : gmap Z GoalContribution;
  contribution_seq : Z;
}.

(** [FinancialGoal.get_progress_percentage] *)
Definition FinancialGoal_get_progress_percentage (self : FinancialGoal)
    : Decimal :=
  if dec_eq (target_amount self) 0 then 0
  else (current_amount self / target_amount self) * 100.

(** [FinancialGoal.get_remaining_amount] *)
Definition FinancialGoal_get_remaining_amount (self : FinancialGoal)
    : Decimal :=
  target_amount self - current_amount self.

(** [GoalContribution.save()].  The class overrides nothing: this is
    [save] of [models.Model], which writes the row of the contribution
    and no other. *)
Definition GoalContribution_save (self : GoalContribution)
    : M State GoalContribution :=
  s ← get;
  match id self with
  | Some k =>
      put {| goal_table := goal_table s;
             contribution_table := <[k := self]> (contribution_table s);
             contribution_seq := contribution_seq s |};;
      mret self
  | None =>
      let k := contribution_seq s in
      put {| goal_table := goal_table s;
             contribution_table :=
               <[k := with_id k self]> (contribution_table s);
             contribution_seq := (k + 1)%Z |};;
      mret (with_id k self)
  end.

(** [goal.contributions.aggregate(Sum('amount'))]: the total of the
    contributions that point to goal [g]. *)
Definition contributions_total (g : Z) (s : State) : Decimal :=
  map_fold
    (fun _ c total => if Z.eqb (goal c) g then total + amount c else total)
    0 (contribution_table s).

End Goals.

(** * Vocabulary of the statements *)

Module Ledger.

Import Accounts.

(** The state in which the object [l], of key [k], holds [a] and has
    been saved. *)
Definition written (l : loc) (k : Z) (a : Account) (s : State) : State :=
  {| instances := <[l := {| pk := k; attrs := a |}]> (instances s);
     account_table := <[k := a]> (account_table s);
     transfer_table := transfer_table s;
     transfer_seq := transfer_seq s |}.

(** The state in which a new object holds row [k]. *)
Definition loaded (k : Z) (a : Account) (s : State) : State :=
  set_instances
    (<[fresh (dom (instances s)) := {| pk := k; attrs := a |}]>
       (instances s)) s.

Definition credit (v : Decimal) (a : Account) : Account :=
  with_current_balance (current_balance a + v) a.

Definition debit (v : Decimal) (a : Account) : Account :=
  with_current_balance (current_balance a - v) a.

(** What a column [DecimalField(max_digits=18, decimal_places=2)] keeps
    of the value [v] it is handed, [w]: [v] itself when [v] is a value of
    the column, and [v] to within half a cent when [v], rounded to two
    places, has no more than 16 digits before the point.  Of a larger
    [v] nothing is said: what happens to it depends on the database. *)
Definition column_keeps (v w : Decimal) : Prop :=
  (DecimalField_valid 18 2 v = true -> w == v)
  /\ (Qabs v < inject_Z (10 ^ 16) - (1 # 200) -> Qabs (w - v) <= 1 # 200).

(** An account whose two balances are values of their columns: the
    database hands such a row back as it was written. *)
Definition fits (a : Account) : bool :=
  DecimalField_valid 18 2 (initial_balance a)
  && DecimalField_valid 18 2 (current_balance a).

(** The state in which the transfer [x], between the rows [f] and [t],
    has been written under key [k], the sequence standing at [q]. *)
Definition filed (k f t : Z) (x : AccountTransfer loc) (q : Z) (s : State)
    : State :=
  set_transfers (<[k := to_row k f t x]> (transfer_table s)) q s.

Import Transactions.

(** The account after [update_balance] with type [ty] and amount [v]. *)
Definition moved (ty : string) (v : Decimal) (a : Account) : Account :=
  if String.eqb ty "income" then credit v a else debit v a.

(** The effective amount [Transaction.save] computes. *)
Definition signed (ty : string) (v : Decimal) : Decimal :=
  if String.eqb ty "expense" then - v else v.

(** The transaction after [Transaction.save] computed its two derived
    fields, the account standing at [bal]. *)
Definition stamped {R : Type} (bal : Decimal) (t : Transaction R)
    : Transaction R :=
  with_balance_after bal
    (with_effective_amount (signed (transaction_type t) (amount t)) t).

(** The instance the admin form builds. *)
Definition built (data : TransactionData) (l : loc) : Transaction loc :=
  {| Transactions.id := data_id data;
     Transactions.user := Transactions.data_user data;
     Transactions.amount := Transactions.data_amount data;
     transaction_type := data_transaction_type data;
     account := l; status := data_status data;
     balance_after := None; effective_amount := None |}.

End Ledger.

(** * The ledger equation *)

Module Books.

Import Accounts Transactions.

(** Sum of [effective_amount] over the completed transactions of
    account [k]. *)
Definition effective_total (k : Z) (m : gmap Z (Transaction Z)) : Decimal :=
  map_fold
    (fun _ t total =>
       if Z.eqb (account t) k && String.eqb (status t) "completed"
       then total + default 0 (effective_amount t) else total)
    0 m.

(** What a transfer moves on account [k]: minus the amount when it
    leaves [k], plus the converted amount when it arrives at [k]. *)
Definition transfer_delta (k : Z) (x : AccountTransfer Z) : Decimal :=
  (if Z.eqb (from_account x) k then - Accounts.amount x else 0)
  + (if Z.eqb (to_account x) k then default 0 (converted_amount x) else 0).

Definition transfer_total (k : Z) (m : gmap Z (AccountTransfer Z))
    : Decimal :=
  map_fold (fun _ x total => total + transfer_delta k x) 0 m.

(** [current_balance == initial_balance + Σ effective amounts of the
    completed transactions + Σ transfer deltas], for every account. *)
Definition balanced (s : Transactions.State) : Prop :=
  forall (k : Z) (a : Account),
    account_table (accounts s) !! k = Some a ->
    current_balance a
    == initial_balance a
       + effective_total k (transaction_table s)
       + transfer_total k (transfer_table (accounts s)).

(** The requests that move money. *)
Inductive Request : Type :=
| Record_transaction (data : TransactionData)
| Apply_transfer (data : TransferData).

(** The state a request leaves. *)
Definition handle (q : Request) (s : Transactions.State)
    : Transactions.State :=
  match q with
  | Record_transaction data => snd (TransactionAdmin_add_view data s)
  | Apply_transfer data =>
      snd (in_accounts (AccountTransferViewSet_create data) s)
  end.

Fixpoint serve (qs : list Request) (s : Transactions.State)
    : Transactions.State :=
  match qs with
  | [] => s
  | q :: rest => serve rest (handle q s)
  end.

(** The requests on which the code keeps the equation: a completed
    income or expense under a UUID not yet in the table; a transfer
    between two different accounts. *)
Definition regular (q : Request) (s : Transactions.State) : Prop :=
  match q with
  | Record_transaction data =>
      data_status data = "completed"
      /\ (data_transaction_type data = "income"
          \/ data_transaction_type data = "expense")
      /\ transaction_table s !! data_id data = None
  | Apply_transfer data => data_from_account data <> data_to_account data
  end.

Fixpoint all_regular (qs : list Request) (s : Transactions.State) : Prop :=
  match qs with
  | [] => True
  | q :: rest => regular q s /\ all_regular rest (handle q s)
  end.

(** The sequence of transfer keys is ahead of the keys in use. *)
Definition sequence_ahead (s : Accounts.State) : Prop :=
  forall k : Z, (transfer_seq s <= k)%Z -> transfer_table s !! k = None.

End Books.

(** * Scenarios *)

Module Scenarios.

Import Accounts Transactions.

Definition account_with (initial current : Decimal) : Account :=
  {| owner := 1; name := "A"; account_type := "current"; currency := 1;
     initial_balance := initial; current_balance := current;
     is_active := true |}.

(** One account, number 1, standing at 100.00; nothing recorded. *)
Definition books_100 : Transactions.State :=
  {| accounts :=
       {| instances := ∅;
          account_table := {[ 1%Z := account_with 100 100 ]};
          transfer_table := ∅; transfer_seq := 1 |};
     transaction_table := ∅ |}.

(** A transaction form for 30.00 on account 1. *)
Definition form_30 (ty st : string) : TransactionData :=
  {| data_id := 7001; Transactions.data_user := 1;
     Transactions.data_amount := 30; data_transaction_type := ty;
     data_account := 1; data_status := st |}.

(** The same form with another amount. *)
Definition form_of (v : Decimal) : TransactionData :=
  {| data_id := 7001; Transactions.data_user := 1;
     Transactions.data_amount := v; data_transaction_type := "income";
     data_account := 1; data_status := "completed" |}.

(** Account 1 (USD) at 70.00 and account 2 (EUR) at 0.00. *)
Definition two_accounts : Accounts.State :=
  {| instances := ∅;
     account_table :=
       <[ 1%Z := account_with 70 70 ]> {[ 2%Z := account_with 0 0 ]};
     transfer_table := ∅; transfer_seq := 1 |}.

(** The two accounts, with nothing recorded. *)
Definition books_two : Transactions.State :=
  {| accounts := two_accounts; transaction_table := ∅ |}.

(** A transfer of 50.00 at rate 0.90 from account [f] to account [t]. *)
Definition transfer_50 (f t : Z) : TransferData :=
  {| Accounts.data_user := 1; data_from_account := f; data_to_account := t;
     Accounts.data_amount := 50; data_exchange_rate := Some (90 # 100) |}.

(** The same request without [exchange_rate]. *)
Definition transfer_50_no_rate (f t : Z) : TransferData :=
  {| Accounts.data_user := 1; data_from_account := f; data_to_account := t;
     Accounts.data_amount := 50; data_exchange_rate := None |}.


Definition budget_of (total spent : Decimal) (threshold : string)
    (custom : option Decimal) : Budgets.Budget :=
  {| Budgets.user := 1; Budgets.name := "B"; Budgets.total_budget := total;
     Budgets.status := "active"; Budgets.alert_threshold := threshold;
     Budgets.custom_alert_percentage := custom;
     Budgets.total_spent := spent; Budgets.total_income := 0 |}.

(** A goal of 5000.00 with nothing saved yet and no contribution. *)
Definition one_goal : Goals.State :=
  {| Goals.goal_table :=
       {[ 1%Z := {| Goals.user := 1; Goals.name := "G";
                    Goals.target_amount := 5000;
                    Goals.current_amount := 0;
                    Goals.status := "active" |} ]};
     Goals.contribution_table := ∅;
     Goals.contribution_seq := 1 |}.

Definition contribution_50 : Goals.GoalContribution :=
  {| Goals.id := None; Goals.goal := 1; Goals.amount := 50;
     Goals.contribution_type := "manual"; Goals.account := 1 |}.

End Scenarios.

(** * budgets/models.py, the other methods *)

Module BudgetViews.

Import Budgets.

(** [Budget.get_status_color] *)
Definition Budget_get_status_color (self : Budget) : string :=
  let percentage := Budget_get_spending_percentage self in
  if dec_ge percentage 100 then "#dc3545"
  else if dec_ge percentage 90 then "#fd7e14"
  else if dec_ge percentage 80 then "#ffc107"
  else "#28a745".

(** [BudgetCategory]; [budget] and [category] are primary keys. *)
Record BudgetCategory : Type := {
  budget : Z;
  category : Z;
  allocated_amount : Decimal;
  spent_amount : Decimal;
}.

(** [BudgetCategory.get_spending_percentage] *)
Definition BudgetCategory_get_spending_percentage (self : BudgetCategory)
    : Decimal :=
  if dec_eq (allocated_amount self) 0 then 0
  else (spent_amount self / allocated_amount self) * 100.

(** [BudgetCategory.get_remaining_amount] *)
Definition BudgetCategory_get_remaining_amount (self : BudgetCategory)
    : Decimal :=
  allocated_amount self - spent_amount self.

(** [BudgetCategory.is_over_budget] *)
Definition BudgetCategory_is_over_budget (self : BudgetCategory) : bool :=
  dec_gt (spent_amount self) (allocated_amount self).

End BudgetViews.

(** * budgets/admin.py *)

Module BudgetsAdmin.

Import Budgets.

(** [BudgetStatusFilter.queryset].  [value] is [self.value()], [None]
    when the filter is not in use; the result [None] is the method
    returning nothing, which leaves the list unfiltered.  The
    comparisons are the database's, taken here on exact values.
    [Decimal('0.9')] and [Decimal('0.5')] are [9 # 10] and [5 # 10]. *)
Definition BudgetStatusFilter_queryset (value : option string)
    (queryset : list Budget) : option (list Budget) :=
  match value with
  | None => None
  | Some v =>
      if String.eqb v "over_budget" then
        Some (List.filter
                (fun b => dec_gt (total_spent b) (total_budget b)) queryset)
      else if String.eqb v "near_limit" then
        Some (List.filter
                (fun b => dec_ge (total_spent b) (total_budget b * (9 # 10)))
                queryset)
      else if String.eqb v "on_track" then
        Some (List.filter
                (fun b =>
                   dec_lt (total_spent b) (total_budget b * (9 # 10))
                   && dec_gt (total_spent b) (total_budget b * (5 # 10)))
                queryset)
      else if String.eqb v "under_spent" then
        Some (List.filter
                (fun b => dec_lt (total_spent b) (total_budget b * (5 # 10)))
                queryset)
      else None
  end.

(** The budget [b] is in the list the filter returns for value [v]. *)
Definition kept_by (v : string) (queryset : list Budget) (b : Budget) : Prop :=
  exists l : list Budget,
    BudgetStatusFilter_queryset (Some v) queryset = Some l /\ In b l.

End BudgetsAdmin.

(** * goals/models.py, the other methods *)

Module GoalSchedule.

Import Goals.

(** Python numbers other than decimals.  A float is given by the real
    number it stands for: the code below only compares one with 1, the
    float being a whole number of days divided by 30.44, which rounding
    cannot move across 1. *)
Inductive Number : Type :=
| PyInt (z : Z)
| PyFloat (x : Q).

Definition value (n : Number) : Q :=
  match n with
  | PyInt z => inject_Z z
  | PyFloat x => x
  end.

Inductive PyError : Type :=
| PyTypeError
| PyArithmeticError.

Inductive Outcome (A : Type) : Type :=
| Returns (a : A)
| Raises (e : PyError).
Arguments Returns {A} a.
Arguments Raises {A} e.

(** [max(a, b)]: [b] only when it is strictly greater. *)
Definition py_max (a b : Number) : Number :=
  if dec_gt (value b) (value a) then b else a.

(** [d / n] for a decimal [d]: a float operand is a [TypeError], a zero
    divisor an [ArithmeticError]. *)
Definition Decimal_truediv (d : Decimal) (n : Number) : Outcome Decimal :=
  match n with
  | PyFloat _ => Raises PyTypeError
  | PyInt z =>
      if Z.eqb z 0 then Raises PyArithmeticError
      else Returns (d / inject_Z z)
  end.

(** [d * n] for a decimal [d]: a float operand is a [TypeError]. *)
Definition Decimal_mul (d : Decimal) (n : Number) : Outcome Decimal :=
  match n with
  | PyFloat _ => Raises PyTypeError
  | PyInt z => Returns (d * inject_Z z)
  end.

(** A goal together with its [target_date], a column the record
    [FinancialGoal] above leaves out; a date is a number of days. *)
Record Dated : Type := {
  columns : FinancialGoal;
  target_date : Z;
}.

(** [FinancialGoal.get_days_remaining]; [today] is
    [timezone.now().date()]. *)
Definition FinancialGoal_get_days_remaining (today : Z) (self : Dated) : Z :=
  (target_date self - today)%Z.

(** [FinancialGoal.get_monthly_progress_needed] *)
Definition FinancialGoal_get_monthly_progress_needed (today : Z)
    (self : Dated) : Outcome Decimal :=
  let days_remaining := FinancialGoal_get_days_remaining today self in
  if (days_remaining <=? 0)%Z then
    Returns (FinancialGoal_get_remaining_amount (columns self))
  else
    let months_remaining :=
      PyFloat (inject_Z days_remaining / (3044 # 100)) in
    Decimal_truediv (FinancialGoal_get_remaining_amount (columns self))
      (py_max months_remaining (PyInt 1)).

(** [FinancialGoal.get_progress_status]: the pair of ['status'] and
    ['color']. *)
Definition FinancialGoal_get_progress_status (self : FinancialGoal)
    : string * string :=
  let percentage := FinancialGoal_get_progress_percentage self in
  if dec_ge percentage 100 then ("completed", "#28a745")
  else if dec_ge percentage 75 then ("on_track", "#17a2b8")
  else if dec_ge percentage 50 then ("progress", "#ffc107")
  else if dec_ge percentage 25 then ("starting", "#fd7e14")
  else ("behind", "#dc3545").

(** [FinancialGoal.is_behind_schedule] *)
Definition FinancialGoal_is_behind_schedule (today : Z) (self : Dated)
    : Outcome bool :=
  match FinancialGoal_get_monthly_progress_needed today self with
  | Raises e => Raises e
  | Returns needed =>
      match Decimal_mul needed (PyInt 12) with
      | Raises e => Raises e
      | Returns expected_amount =>
          match Decimal_mul expected_amount (PyFloat (8 # 10)) with
          | Raises e => Raises e
          | Returns threshold =>
              Returns (dec_lt (current_amount (columns self)) threshold)
          end
      end
  end.

(** The statuses of [get_progress_status], from the lowest. *)
Definition status_rank (status : string) : nat :=
  if String.eqb status "completed" then 4
  else if String.eqb status "on_track" then 3
  else if String.eqb status "progress" then 2
  else if String.eqb status "starting" then 1
  else 0.

(** A goal of [target] holding [current]. *)
Definition goal_of (target current : Decimal) : FinancialGoal :=
  {| user := 1; name := "G"; target_amount := target;
     current_amount := current; status := "active" |}.

(** A goal of 5000.00 holding 1250.00, due on day 120. *)
Definition goal_due_in_20 : Dated :=
  {| columns := {| user := 1; name := "G"; target_amount := 5000;
                   current_amount := 1250; status := "active" |};
     target_date := 120 |}.

End GoalSchedule.

(** * The balance [recalculate_balances] assigns *)

Module Recount.

Import Accounts Transactions AccountsAdmin.

(** [account.initial_balance + total_income - total_expense] for the
    account of key [k] holding [a], over the transactions [m]. *)
Definition recomputed (k : Z) (m : gmap Z (Transaction Z)) (a : Account)
    : Decimal :=
  initial_balance a + completed_total "income" k m
  - completed_total "expense" k m.

(** The account after the action assigned its balance. *)
Definition recounted (k : Z) (m : gmap Z (Transaction Z)) (a : Account)
    : Account :=
  with_current_balance (recomputed k m a) a.

End Recount.

(** * transactions/admin.py *)

Module TransactionsAdmin.

(** [DateRangeFilter.queryset], value 'last_month': the pair of
    [last_year] and [last_month] the list is filtered on, [year] and
    [month] being those of [timezone.now()]. *)
Definition DateRangeFilter_last_month (year month : Z) : Z * Z :=
  let last_month := if (month >? 1)%Z then (month - 1)%Z else 12%Z in
  let last_year := if (month >? 1)%Z then year else (year - 1)%Z in
  (last_year, last_month).

End TransactionsAdmin.

(** * categories/models.py *)

Module Categories.

(** [Category]; [parent] is the key of the parent row. *)
Record Category : Type := {
  user : Z;
  name : string;
  parent : option Z;
  category_type : string;
  is_active : bool;
  budget_limit : option Decimal;
}.

(** [Category.get_full_path].  [self.parent] reads the parent's row;
    [depth] bounds the nesting of the calls, as the interpreter's
    recursion limit does, and [None] is the call that did not return
    within it. *)
Fixpoint Category_get_full_path (depth : nat) (table : gmap Z Category)
    (self : Category) : option (Result string) :=
  match depth with
  | O => None
  | S depth' =>
      match parent self with
      | Some p =>
          match table !! p with
          | Some c =>
              match Category_get_full_path depth' table c with
              | Some (Ok path) =>
                  Some (Ok (path ++ " > " ++ name self)%string)
              | other => other
              end
          | None => Some (Raise DoesNotExist)
          end
      | None => Some (Ok (name self))
      end
  end.

(** The names from the root down to the category [c], when following
    [parent] from [c] ends at a category without parent. *)
Inductive lineage (table : gmap Z Category) : Category -> list string -> Prop :=
| lineage_root (c : Category) :
    parent c = None -> lineage table c [name c]
| lineage_child (c c' : Category) (p : Z) (names : list string) :
    parent c = Some p -> table !! p = Some c' ->
    lineage table c' names -> lineage table c (names ++ [name c]).

(** A category that is its own parent, under key 1. *)
Definition own_parent : Category :=
  {| user := 1; name := "Food"; parent := Some 1%Z;
     category_type := "expense"; is_active := true; budget_limit := None |}.

(** 'Home' over 'Food' (key 2, parent 1). *)
Definition home : Category :=
  {| user := 1; name := "Home"; parent := None;
     category_type := "expense"; is_active := true; budget_limit := None |}.

Definition food : Category :=
  {| user := 1; name := "Food"; parent := Some 1%Z;
     category_type := "expense"; is_active := true; budget_limit := None |}.

End Categories.

(** * Further scenarios *)

Module MoreScenarios.

Import Accounts Transactions Scenarios.

(** [books_100] after account 1 was loaded into object 0. *)
Definition books_100_loaded : Transactions.State :=
  {| accounts :=
       {| instances := {[ 0%nat := {| pk := 1; attrs := account_with 100 100 |} ]};
          account_table := {[ 1%Z := account_with 100 100 ]};
          transfer_table := ∅; transfer_seq := 1 |};
     transaction_table := ∅ |}.

(** The form of 30.00 on account 1 under another UUID. *)
Definition form_30_again (ty st : string) : TransactionData :=
  {| data_id := 7002; Transactions.data_user := 1;
     Transactions.data_amount := 30; data_transaction_type := ty;
     data_account := 1; data_status := st |}.

(** A completed expense of [v] on account 1. *)
Definition form_expense (v : Decimal) : TransactionData :=
  {| data_id := 7003; Transactions.data_user := 1;
     Transactions.data_amount := v; data_transaction_type := "expense";
     data_account := 1; data_status := "completed" |}.

(** Account 1 at 100.00, loaded twice: objects 0 and 1. *)
Definition loaded_twice : Accounts.State :=
  {| instances :=
       <[ 0%nat := {| pk := 1; attrs := account_with 100 100 |} ]>
         {[ 1%nat := {| pk := 1; attrs := account_with 100 100 |} ]};
     account_table := {[ 1%Z := account_with 100 100 ]};
     transfer_table := ∅; transfer_seq := 1 |}.

(** The two accounts of [two_accounts], loaded into objects 0 and 1. *)
Definition two_loaded : Accounts.State :=
  {| instances :=
       <[ 0%nat := {| pk := 1; attrs := account_with 70 70 |} ]>
         {[ 1%nat := {| pk := 2; attrs := account_with 0 0 |} ]};
     account_table :=
       <[ 1%Z := account_with 70 70 ]> {[ 2%Z := account_with 0 0 ]};
     transfer_table := ∅; transfer_seq := 1 |}.

(** A new transfer of [v] at rate [r] from object [f] to object [t]. *)
Definition transfer_of (v r : Decimal) (f t : loc) : AccountTransfer loc :=
  {| Accounts.id := None; Accounts.user := 1; from_account := f;
     to_account := t; Accounts.amount := v; exchange_rate := Dec r;
     converted_amount := None |}.


(** [two_loaded], with nothing recorded. *)
Definition books_two_loaded : Transactions.State :=
  {| accounts := two_loaded; transaction_table := ∅ |}.

End MoreScenarios.

(** * Properties *)

(** ** Decimal comparisons *)

Lemma dec_ge_spec (x y : Q) : dec_ge x y = true <-> y <= x.
Proof. unfold dec_ge. apply Qle_bool_iff. Qed.

Lemma dec_gt_spec (x y : Q) : dec_gt x y = true <-> y < x.
Proof.
  unfold dec_gt. rewrite negb_true_iff.
  destruct (Qle_bool x y) eqn:E.
  - apply Qle_bool_iff in E. split; [discriminate | intros H; lra].
  - split; [intros _ | reflexivity].
    apply Qnot_le_lt. intros H. apply Qle_bool_iff in H. congruence.
Qed.

Lemma dec_lt_spec (x y : Q) : dec_lt x y = true <-> x < y.
Proof. apply (dec_gt_spec y x). Qed.

Lemma dec_eq_spec (x y : Q) : dec_eq x y = true <-> x == y.
Proof. unfold dec_eq. apply Qeq_bool_iff. Qed.

Lemma MinValueValidator_spec (limit value : Q) :
  MinValueValidator limit value = true <-> limit <= value.
Proof.
  unfold MinValueValidator. rewrite negb_true_iff.
  destruct (dec_lt value limit) eqn:E.
  - apply dec_lt_spec in E. split; [discriminate | intros H; lra].
  - split; [intros _ | reflexivity].
    apply Qnot_lt_le. intros H. apply dec_lt_spec in H. congruence.
Qed.

(** Closing a statement about a scenario by running the code. *)
Ltac evaluate :=
  repeat (split; [vm_compute; reflexivity |]); vm_compute; reflexivity.

(** ** The monad *)

Lemma bind_run {S A B : Type} (m : M S A) (f : A -> M S B) (s : S) :
  (m ≫= f) s =
  match m s with
  | (Ok a, s') => f a s'
  | (Raise e, s') => (Raise e, s')
  end.
Proof. reflexivity. Qed.

Lemma bind_ok {S A B : Type} (m : M S A) (f : A -> M S B) (s s' : S) (a : A) :
  m s = (Ok a, s') -> (m ≫= f) s = f a s'.
Proof. intros H. rewrite bind_run, H. reflexivity. Qed.

Lemma bind_raise {S A B : Type} (m : M S A) (f : A -> M S B) (s s' : S) (e : Exn) :
  m s = (Raise e, s') -> (m ≫= f) s = (Raise e, s').
Proof. intros H. rewrite bind_run, H. reflexivity. Qed.

Lemma lift_run {S T A : Type} (proj : T -> S) (upd : S -> T -> T)
    (m : M S A) (t : T) (r : Result A) (s' : S) :
  m (proj t) = (r, s') -> lift proj upd m t = (r, upd s' t).
Proof. intros H. unfold lift. rewrite H. reflexivity. Qed.

(** ** accounts/models.py: what each method does *)

Section AccountsFacts.

Import Accounts Ledger.

Lemma deref_run (l : loc) (i : Instance) (s : State) :
  instances s !! l = Some i -> deref l s = (Ok i, s).
Proof. intros H. unfold deref. rewrite H. reflexivity. Qed.

Lemma deref_raise (l : loc) (s : State) :
  instances s !! l = None -> deref l s = (Raise RelatedObjectDoesNotExist, s).
Proof. intros H. unfold deref. rewrite H. reflexivity. Qed.

Lemma Account_objects_get_run (k : Z) (a : Account) (s : State) :
  account_table s !! k = Some a ->
  Account_objects_get k s = (Ok (fresh (dom (instances s))), loaded k a s).
Proof.
  intros H. unfold Account_objects_get.
  rewrite bind_run. cbn. rewrite H. reflexivity.
Qed.

Lemma Account_objects_get_raise (k : Z) (s : State) :
  account_table s !! k = None ->
  Account_objects_get k s = (Raise DoesNotExist, s).
Proof.
  intros H. unfold Account_objects_get.
  rewrite bind_run. cbn. rewrite H. reflexivity.
Qed.

Lemma loaded_lookup_new (k : Z) (a : Account) (s : State) :
  instances (loaded k a s) !! fresh (dom (instances s))
  = Some {| pk := k; attrs := a |}.
Proof. cbn. apply lookup_insert_eq. Qed.

Lemma loaded_lookup_old (k : Z) (a : Account) (s : State) (l : loc) (i : Instance) :
  instances s !! l = Some i -> instances (loaded k a s) !! l = Some i.
Proof.
  intros H. cbn. rewrite lookup_insert_ne; [exact H |].
  intros E. apply (is_fresh (dom (instances s))).
  rewrite E. apply elem_of_dom. eauto.
Qed.

Lemma fresh_ne (s : State) (l : loc) (i : Instance) :
  instances s !! l = Some i -> fresh (dom (instances s)) <> l.
Proof.
  intros H E. apply (is_fresh (dom (instances s))).
  rewrite E. apply elem_of_dom. eauto.
Qed.

Lemma setattr_current_balance_run (l : loc) (i : Instance) (v : Q) (s : State) :
  instances s !! l = Some i ->
  setattr_current_balance l v s
  = (Ok tt,
     set_instances
       (<[l := {| pk := pk i; attrs := with_current_balance v (attrs i) |}]>
          (instances s)) s).
Proof.
  intros H. unfold setattr_current_balance.
  rewrite (bind_ok _ _ _ _ _ (deref_run l i s H)). reflexivity.
Qed.

Lemma Account_save_run (l : loc) (i : Instance) (s : State) :
  instances s !! l = Some i ->
  Account_save l s
  = (Ok tt, set_account_table (<[pk i := attrs i]> (account_table s)) s).
Proof.
  intros H. unfold Account_save.
  rewrite (bind_ok _ _ _ _ _ (deref_run l i s H)). reflexivity.
Qed.

(** Assigning the balance of an object and saving it, followed by [k]. *)
Lemma setattr_save_then {B : Type} (l : loc) (i : Instance) (v : Q)
    (s : State) (k : unit -> M State B) :
  instances s !! l = Some i ->
  (setattr_current_balance l v ≫= fun _ => Account_save l ≫= k) s
  = k tt (written l (pk i) (with_current_balance v (attrs i)) s).
Proof.
  intros H.
  rewrite (bind_ok _ _ _ _ _ (setattr_current_balance_run l i v s H)).
  set (i' := {| pk := pk i; attrs := with_current_balance v (attrs i) |}).
  assert (Hs : instances (set_instances (<[l := i']> (instances s)) s) !! l
               = Some i') by (cbn; apply lookup_insert_eq).
  rewrite (bind_ok _ _ _ _ _ (Account_save_run l i' _ Hs)). reflexivity.
Qed.

Lemma setattr_then_save (l : loc) (i : Instance) (v : Q) (s : State) :
  instances s !! l = Some i ->
  (setattr_current_balance l v ;; Account_save l) s
  = (Ok tt, written l (pk i) (with_current_balance v (attrs i)) s).
Proof.
  intros H.
  rewrite (bind_ok _ _ _ _ _ (setattr_current_balance_run l i v s H)).
  set (i' := {| pk := pk i; attrs := with_current_balance v (attrs i) |}).
  assert (Hs : instances (set_instances (<[l := i']> (instances s)) s) !! l
               = Some i') by (cbn; apply lookup_insert_eq).
  rewrite (Account_save_run l i' _ Hs). reflexivity.
Qed.

Lemma Account_update_balance_run (l : loc) (i : Instance) (amount : Q)
    (ty : string) (s : State) :
  instances s !! l = Some i ->
  Account_update_balance l amount ty s
  = (Ok tt,
     written l (pk i)
       (if String.eqb ty "income" then credit amount (attrs i)
        else debit amount (attrs i)) s).
Proof.
  intros H. unfold Account_update_balance.
  rewrite (bind_ok _ _ _ _ _ (deref_run l i s H)).
  destruct (String.eqb ty "income"); apply (setattr_then_save l i _ s H).
Qed.

Lemma Account_update_balance_raise (l : loc) (amount : Q) (ty : string) (s : State) :
  instances s !! l = None ->
  Account_update_balance l amount ty s = (Raise RelatedObjectDoesNotExist, s).
Proof.
  intros H. unfold Account_update_balance.
  apply bind_raise. apply deref_raise, H.
Qed.

End AccountsFacts.

Section TransferFacts.

Import Accounts Ledger.

Lemma written_lookup_same (l : loc) (k : Z) (a : Account) (s : State) :
  instances (written l k a s) !! l = Some {| pk := k; attrs := a |}.
Proof. cbn. apply lookup_insert_eq. Qed.

Lemma written_lookup_other (l l' : loc) (k : Z) (a : Account) (s : State) :
  l <> l' -> instances (written l k a s) !! l' = instances s !! l'.
Proof. intros H. cbn. apply lookup_insert_ne, H. Qed.

Lemma AccountTransfer_super_save_new (x : AccountTransfer loc)
    (i j : Instance) (s : State) :
  id x = None ->
  instances s !! from_account x = Some i ->
  instances s !! to_account x = Some j ->
  AccountTransfer_super_save x s
  = (Ok (with_id (transfer_seq s) x),
     filed (transfer_seq s) (pk i) (pk j) x (transfer_seq s + 1)%Z s).
Proof.
  intros Hid Hi Hj. unfold AccountTransfer_super_save.
  rewrite (bind_ok _ _ _ _ _ (deref_run _ i s Hi)).
  rewrite (bind_ok _ _ _ _ _ (deref_run _ j s Hj)).
  rewrite bind_run. cbn. rewrite Hid. reflexivity.
Qed.

Lemma AccountTransfer_super_save_update (x : AccountTransfer loc) (k : Z)
    (i j : Instance) (s : State) :
  id x = Some k ->
  instances s !! from_account x = Some i ->
  instances s !! to_account x = Some j ->
  AccountTransfer_super_save x s
  = (Ok x, filed k (pk i) (pk j) x (transfer_seq s) s).
Proof.
  intros Hid Hi Hj. unfold AccountTransfer_super_save.
  rewrite (bind_ok _ _ _ _ _ (deref_run _ i s Hi)).
  rewrite (bind_ok _ _ _ _ _ (deref_run _ j s Hj)).
  rewrite bind_run. cbn. rewrite Hid. reflexivity.
Qed.

(** With a float in [exchange_rate], [AccountTransfer.save] raises at
    its first line: nothing was read or written. *)
Lemma AccountTransfer_save_float (x : AccountTransfer loc) (f : Q)
    (s : State) :
  exchange_rate x = Float f ->
  AccountTransfer_save x s = (Raise TypeError, s).
Proof.
  intros Hr. unfold AccountTransfer_save. rewrite Hr. reflexivity.
Qed.

(** The two legs of [AccountTransfer.save], then [super().save()].  The
    object behind [to_account] is read after the first leg was written:
    [j] is what it holds then. *)
Lemma AccountTransfer_save_legs (x : AccountTransfer loc) (r : Q)
    (i j : Instance) (s : State) :
  let c := amount x * r in
  let s1 := written (from_account x) (pk i) (debit (amount x) (attrs i)) s in
  exchange_rate x = Dec r ->
  instances s !! from_account x = Some i ->
  instances s1 !! to_account x = Some j ->
  AccountTransfer_save x s
  = AccountTransfer_super_save (with_converted_amount c x)
      (written (to_account x) (pk j) (credit c (attrs j)) s1).
Proof.
  intros c s1 Hr Hi Hj. unfold AccountTransfer_save. rewrite Hr.
  rewrite bind_run. cbn [Decimal_times mret M_ret]. fold c. cbn.
  rewrite (bind_ok _ _ _ _ _ (deref_run _ i s Hi)).
  rewrite (setattr_save_then _ i _ s _ Hi). fold s1.
  rewrite (bind_ok _ _ _ _ _ (deref_run _ j s1 Hj)).
  rewrite (setattr_save_then _ j _ s1 _ Hj). reflexivity.
Qed.

Lemma column_keeps_refl (v : Q) : column_keeps v v.
Proof.
  split; intros _; [reflexivity |].
  assert (E : v - v == 0) by ring. rewrite E. discriminate.
Qed.


(** The same between two objects of two different rows: the result, the
    two objects and the rows afterwards. *)
Lemma AccountTransfer_save_rows (x : AccountTransfer loc) (r : Q)
    (i j : Instance) (s : State) :
  let c := amount x * r in
  exchange_rate x = Dec r ->
  from_account x <> to_account x ->
  pk i <> pk j ->
  instances s !! from_account x = Some i ->
  instances s !! to_account x = Some j ->
  exists (x' : AccountTransfer loc) (s' : State) (k : Z),
    AccountTransfer_save x s = (Ok x', s')
    /\ converted_amount x' = Some c
    /\ id x' = Some k
    /\ transfer_table s' !! k
       = Some (to_row k (pk i) (pk j) (with_converted_amount c x))
    /\ instances s' !! from_account x
       = Some {| pk := pk i; attrs := debit (amount x) (attrs i) |}
    /\ instances s' !! to_account x
       = Some {| pk := pk j; attrs := credit c (attrs j) |}
    /\ account_table s' !! pk i = Some (debit (amount x) (attrs i))
    /\ account_table s' !! pk j = Some (credit c (attrs j))
    /\ (forall k' : Z,
          k' <> pk i -> k' <> pk j ->
          account_table s' !! k' = account_table s !! k').
Proof.
  intros c Hr Hl Hk Hi Hj.
  set (s1 := written (from_account x) (pk i) (debit (amount x) (attrs i)) s).
  assert (Hj1 : instances s1 !! to_account x = Some j).
  { unfold s1. rewrite written_lookup_other by exact Hl. exact Hj. }
  pose proof (AccountTransfer_save_legs x r i j s Hr Hi Hj1) as E.
  cbv zeta in E. fold c s1 in E.
  set (s2 := written (to_account x) (pk j) (credit c (attrs j)) s1) in E.
  assert (Hi2 : instances s2 !! from_account x
                = Some {| pk := pk i; attrs := debit (amount x) (attrs i) |}).
  { unfold s2. rewrite written_lookup_other by congruence.
    apply written_lookup_same. }
  assert (Hj2 : instances s2 !! to_account x
                = Some {| pk := pk j; attrs := credit c (attrs j) |})
    by apply written_lookup_same.
  assert (Ti : account_table s2 !! pk i = Some (debit (amount x) (attrs i))).
  { cbn. rewrite lookup_insert_ne by congruence. apply lookup_insert_eq. }
  assert (Tj : account_table s2 !! pk j = Some (credit c (attrs j))).
  { cbn. apply lookup_insert_eq. }
  assert (To : forall k' : Z, k' <> pk i -> k' <> pk j ->
               account_table s2 !! k' = account_table s !! k').
  { intros k' N1 N2. cbn. rewrite !lookup_insert_ne by congruence.
    reflexivity. }
  destruct (id x) as [k |] eqn:Hid.
  - pose proof (AccountTransfer_super_save_update (with_converted_amount c x)
                  k _ _ s2 Hid Hi2 Hj2) as E2.
    eexists _, _, k. split; [rewrite E; exact E2 |].
    split; [reflexivity |]. split; [exact Hid |].
    split; [cbn; apply lookup_insert_eq |].
    cbn [filed set_transfers instances account_table].
    repeat split; assumption.
  - pose proof (AccountTransfer_super_save_new (with_converted_amount c x)
                  _ _ s2 Hid Hi2 Hj2) as E2.
    eexists _, _, (transfer_seq s2). split; [rewrite E; exact E2 |].
    split; [reflexivity |]. split; [reflexivity |].
    split; [cbn; apply lookup_insert_eq |].
    cbn [filed set_transfers instances account_table].
    repeat split; assumption.
Qed.

End TransferFacts.

Section TransferRequests.

Import Accounts Ledger.

Lemma AccountTransferSerializer_is_valid_spec (data : TransferData) (s : State) :
  AccountTransferSerializer_is_valid data s = true <->
  is_Some (account_table s !! data_from_account data)
  /\ is_Some (account_table s !! data_to_account data)
  /\ DecimalField_valid 18 2 (data_amount data) = true
  /\ cent <= data_amount data
  /\ (forall rate : Q,
        data_exchange_rate data = Some rate ->
        DecimalField_valid 18 8 rate = true).
Proof.
  unfold AccountTransferSerializer_is_valid.
  rewrite !andb_true_iff, !bool_decide_eq_true, MinValueValidator_spec.
  destruct (data_exchange_rate data) as [rate |].
  - split.
    + intros ((((H1 & H2) & H3) & H4) & H5).
      repeat split; try assumption. intros ? [= <-]. exact H5.
    + intros (H1 & H2 & H3 & H4 & H5).
      repeat split; try assumption. apply H5. reflexivity.
  - split.
    + intros ((((H1 & H2) & H3) & H4) & _).
      repeat split; try assumption. intros ? [=].
    + intros (H1 & H2 & H3 & H4 & _). repeat split; assumption.
Qed.

(** The instance [perform_create] builds and saves, for a request that
    carries an exchange rate. *)
Lemma AccountTransferViewSet_create_run (data : TransferData) (s : State)
    (rate : Q) (f g : Account) :
  let l1 := fresh (dom (instances s)) in
  let l2 := fresh (dom (instances (loaded (data_from_account data) f s))) in
  let c := data_amount data * rate in
  let x :=
    {| id := None; user := data_user data; from_account := l1;
       to_account := l2; amount := data_amount data;
       exchange_rate := Dec rate;
       converted_amount := Some c |} in
  data_exchange_rate data = Some rate ->
  AccountTransferSerializer_is_valid data s = true ->
  account_table s !! data_from_account data = Some f ->
  account_table s !! data_to_account data = Some g ->
  AccountTransferViewSet_create data s
  = (Ok (with_id (transfer_seq s) x),
     filed (transfer_seq s) (data_from_account data) (data_to_account data)
       x (transfer_seq s + 1)%Z
       (written l2 (data_to_account data) (credit c g)
          (written l1 (data_from_account data)
             (debit (data_amount data) f)
             (loaded (data_to_account data) g
                (loaded (data_from_account data) f s))))).
Proof.
  intros l1 l2 c x Hr Hv Hf Hg. unfold AccountTransferViewSet_create.
  unfold rate_of. rewrite Hr.
  rewrite bind_run. cbn [get]. rewrite Hv.
  rewrite (bind_ok _ _ _ _ _ (Account_objects_get_run _ f s Hf)).
  fold l1.
  set (sA := loaded (data_from_account data) f s).
  assert (HgA : account_table sA !! data_to_account data = Some g) by exact Hg.
  rewrite (bind_ok _ _ _ _ _ (Account_objects_get_run _ g sA HgA)).
  fold l2.
  set (sB := loaded (data_to_account data) g sA).
  assert (H1 : instances sB !! l1
               = Some {| pk := data_from_account data; attrs := f |}).
  { apply loaded_lookup_old. apply loaded_lookup_new. }
  assert (H2 : instances sB !! l2
               = Some {| pk := data_to_account data; attrs := g |}).
  { apply loaded_lookup_new. }
  assert (Hne : l1 <> l2).
  { intros E. apply (fresh_ne sA l1 _ (loaded_lookup_new _ f s)).
    symmetry. exact E. }
  set (x0 := {| id := None; user := data_user data; from_account := l1;
                to_account := l2; amount := data_amount data;
                exchange_rate := Dec rate;
                converted_amount := None |}).
  transitivity (AccountTransfer_save x0 sB); [reflexivity |].
  rewrite (AccountTransfer_save_legs x0 rate
             {| pk := data_from_account data; attrs := f |}
             {| pk := data_to_account data; attrs := g |} sB eq_refl H1).
  2:{ cbn [from_account to_account x0]. rewrite written_lookup_other by exact Hne.
      exact H2. }
  cbn [from_account to_account amount exchange_rate x0 pk attrs].
  fold c.
  set (sD := written l2 _ _ _).
  assert (Hi : instances sD !! l1
               = Some {| pk := data_from_account data;
                         attrs := debit (data_amount data) f |}).
  { unfold sD.
    rewrite written_lookup_other by (intros E; apply Hne; symmetry; exact E).
    apply written_lookup_same. }
  assert (Hj : instances sD !! l2
               = Some {| pk := data_to_account data; attrs := credit c g |}).
  { apply written_lookup_same. }
  rewrite (AccountTransfer_super_save_new (with_converted_amount c x0)
             _ _ sD eq_refl Hi Hj).
  reflexivity.
Qed.

(** A valid request without exchange rate: the two accounts are loaded,
    the instance is built with the float default and its [save] raises
    [TypeError] before it wrote anything. *)
Lemma AccountTransferViewSet_create_default (data : TransferData) (s : State)
    (f g : Account) :
  data_exchange_rate data = None ->
  AccountTransferSerializer_is_valid data s = true ->
  account_table s !! data_from_account data = Some f ->
  account_table s !! data_to_account data = Some g ->
  AccountTransferViewSet_create data s
  = (Raise TypeError,
     loaded (data_to_account data) g (loaded (data_from_account data) f s)).
Proof.
  intros Hr Hv Hf Hg. unfold AccountTransferViewSet_create.
  unfold rate_of. rewrite Hr.
  rewrite bind_run. cbn [get]. rewrite Hv.
  rewrite (bind_ok _ _ _ _ _ (Account_objects_get_run _ f s Hf)).
  set (sA := loaded (data_from_account data) f s).
  assert (HgA : account_table sA !! data_to_account data = Some g) by exact Hg.
  rewrite (bind_ok _ _ _ _ _ (Account_objects_get_run _ g sA HgA)).
  apply (AccountTransfer_save_float _ 1). reflexivity.
Qed.

Lemma AccountTransferViewSet_create_invalid (data : TransferData) (s : State) :
  AccountTransferSerializer_is_valid data s = false ->
  AccountTransferViewSet_create data s = (Raise ValidationError, s).
Proof.
  intros Hv. unfold AccountTransferViewSet_create.
  rewrite bind_run. cbn [get]. rewrite Hv. reflexivity.
Qed.

End TransferRequests.

(** ** transactions/models.py: what each method does *)

Section TransactionFacts.

Import Accounts Transactions Ledger.

Lemma in_accounts_run {A : Type} (m : M Accounts.State A)
    (s : Transactions.State) (r : Result A) (a' : Accounts.State) :
  m (accounts s) = (r, a') -> in_accounts m s = (r, set_accounts a' s).
Proof. apply lift_run. Qed.

Lemma Transaction_save_run (t : Transaction loc) (i : Instance)
    (s : Transactions.State) :
  let a' := moved (transaction_type t) (Transactions.amount t) (attrs i) in
  let t' := stamped (current_balance a') t in
  instances (accounts s) !! account t = Some i ->
  Transaction_save t s
  = (Ok t',
     set_transaction_table
       (<[Transactions.id t := Transactions.to_row (pk i) t']>
          (transaction_table s))
       (set_accounts (written (account t) (pk i) a' (accounts s)) s)).
Proof.
  intros a' t' Hi. unfold Transaction_save.
  set (t1 := if String.eqb (transaction_type t) "expense"
             then with_effective_amount (- Transactions.amount t) t
             else with_effective_amount (Transactions.amount t) t).
  assert (Et1 : t1 = with_effective_amount
                       (signed (transaction_type t) (Transactions.amount t)) t).
  { unfold t1, signed. destruct (String.eqb _ _); reflexivity. }
  assert (Eacc : account t1 = account t)
    by (rewrite Et1; reflexivity).
  assert (Eamt : Transactions.amount t1 = Transactions.amount t)
    by (rewrite Et1; reflexivity).
  assert (Ety : transaction_type t1 = transaction_type t)
    by (rewrite Et1; reflexivity).
  rewrite Eacc, Eamt, Ety.
  rewrite (bind_ok _ _ _ _ _
             (in_accounts_run _ s _ _
                (Account_update_balance_run _ i _ _ _ Hi))).
  fold (moved (transaction_type t) (Transactions.amount t) (attrs i)).
  fold a'.
  set (s1 := set_accounts _ s).
  assert (H1 : instances (accounts s1) !! account t
               = Some {| pk := pk i; attrs := a' |})
    by apply written_lookup_same.
  rewrite (bind_ok _ _ _ _ _
             (in_accounts_run _ s1 _ _ (deref_run _ _ _ H1))).
  cbn [attrs]. unfold Transaction_super_save.
  assert (Eacc2 : account (with_balance_after (current_balance a') t1)
                  = account t) by (rewrite Et1; reflexivity).
  rewrite Eacc2.
  assert (H2 : instances (accounts (set_accounts (accounts s1) s1))
                 !! account t = Some {| pk := pk i; attrs := a' |})
    by exact H1.
  rewrite (bind_ok _ _ _ _ _
             (in_accounts_run _ _ _ _ (deref_run _ _ _ H2))).
  rewrite Et1. reflexivity.
Qed.

Lemma Transaction_save_raise (t : Transaction loc) (s : Transactions.State) :
  instances (accounts s) !! account t = None ->
  fst (Transaction_save t s) = Raise RelatedObjectDoesNotExist.
Proof.
  intros Hi. unfold Transaction_save.
  set (t1 := if String.eqb (transaction_type t) "expense"
             then with_effective_amount (- Transactions.amount t) t
             else with_effective_amount (Transactions.amount t) t).
  assert (Eacc : account t1 = account t)
    by (unfold t1; destruct (String.eqb _ _); reflexivity).
  rewrite Eacc.
  erewrite bind_raise; [reflexivity |].
  apply in_accounts_run. apply Account_update_balance_raise, Hi.
Qed.

Lemma TransactionForm_is_valid_spec (data : TransactionData)
    (s : Transactions.State) :
  TransactionForm_is_valid data s = true <->
  DecimalField_valid 18 2 (Transactions.data_amount data) = true
  /\ cent <= Transactions.data_amount data
  /\ choice_valid TRANSACTION_TYPES (data_transaction_type data) = true
  /\ is_Some (account_table (accounts s) !! data_account data)
  /\ choice_valid STATUS_CHOICES (data_status data) = true.
Proof.
  unfold TransactionForm_is_valid.
  rewrite !andb_true_iff, !bool_decide_eq_true, MinValueValidator_spec.
  tauto.
Qed.

Lemma TransactionAdmin_add_view_invalid (data : TransactionData)
    (s : Transactions.State) :
  TransactionForm_is_valid data s = false ->
  TransactionAdmin_add_view data s = (Raise ValidationError, s).
Proof.
  intros Hv. unfold TransactionAdmin_add_view.
  rewrite bind_run. cbn [get]. rewrite Hv. reflexivity.
Qed.

Lemma TransactionAdmin_add_view_run (data : TransactionData)
    (s : Transactions.State) (a : Account) :
  let l := fresh (dom (instances (accounts s))) in
  let a' :=
    moved (data_transaction_type data) (Transactions.data_amount data) a in
  let t' := stamped (current_balance a') (built data l) in
  TransactionForm_is_valid data s = true ->
  account_table (accounts s) !! data_account data = Some a ->
  TransactionAdmin_add_view data s
  = (Ok t',
     set_transaction_table
       (<[data_id data := Transactions.to_row (data_account data) t']>
          (transaction_table s))
       (set_accounts
          (written l (data_account data) a'
             (loaded (data_account data) a (accounts s))) s)).
Proof.
  intros l a' t' Hv Ha. unfold TransactionAdmin_add_view.
  rewrite bind_run. cbn [get]. rewrite Hv.
  rewrite (bind_ok _ _ _ _ _
             (in_accounts_run _ s _ _ (Account_objects_get_run _ a _ Ha))).
  fold l. fold (built data l).
  set (s1 := set_accounts _ s).
  assert (Hl : instances (accounts s1) !! account (built data l)
               = Some {| pk := data_account data; attrs := a |})
    by apply loaded_lookup_new.
  rewrite (Transaction_save_run (built data l) _ s1 Hl).
  reflexivity.
Qed.

End TransactionFacts.

(** ** budgets/models.py *)

Section BudgetProperties.

Import Budgets Scenarios.

(** C8, as the code has it.  [get_spending_percentage] is 0 when
    [total_budget] is 0 and [(total_spent / total_budget) * 100]
    otherwise; with [total_budget > 0] and [total_spent >= 0] it is not
    negative; [is_over_budget] holds exactly when [total_spent] is
    strictly greater than [total_budget]. *)
Theorem spending_percentage_contract (b : Budget) :
  (total_budget b == 0 -> Budget_get_spending_percentage b = 0)
  /\ (~ total_budget b == 0 ->
      Budget_get_spending_percentage b
      = (total_spent b / total_budget b) * 100)
  /\ (0 < total_budget b -> 0 <= total_spent b ->
      0 <= Budget_get_spending_percentage b)
  /\ (Budget_is_over_budget b = true <-> total_budget b < total_spent b).
Proof.
  unfold Budget_get_spending_percentage, Budget_is_over_budget.
  repeat split.
  - intros H. apply dec_eq_spec in H. rewrite H. reflexivity.
  - intros H. destruct (dec_eq (total_budget b) 0) eqn:E; [| reflexivity].
    apply dec_eq_spec in E. contradiction.
  - intros Hb Hs. destruct (dec_eq (total_budget b) 0); [lra |].
    apply Qmult_le_0_compat; [| lra].
    apply Qle_shift_div_l; lra.
  - apply dec_gt_spec.
  - apply dec_gt_spec.
Qed.

(** The contract at a budget of 1000.00 with 950.00 spent. *)
Lemma spending_percentage_contract_witness :
  0 <= Budget_get_spending_percentage (budget_of 1000 950 "90_percent" None).
Proof.
  apply (proj1 (proj2 (proj2
           (spending_percentage_contract
              (budget_of 1000 950 "90_percent" None))))).
  - reflexivity.
  - discriminate.
Defined.

(** C8 as stated fails: a budget of 100.00 whose [total_spent] is -10.00
    (the field has no lower bound) has a negative percentage. *)
Lemma spending_percentage_negative :
  0 < total_budget (budget_of 100 (-10) "none" None)
  /\ ~ 0 <= Budget_get_spending_percentage (budget_of 100 (-10) "none" None).
Proof.
  split.
  - reflexivity.
  - intros H. vm_compute in H. apply H. reflexivity.
Qed.

(** The threshold a budget is configured with, in the words of the
    specification: 80, 90, 100 or the custom percentage. *)
Lemma configured_threshold_cases (b : Budget) (t : Q) :
  configured_threshold b = Some t ->
  (alert_threshold b = "80_percent" /\ t = 80)
  \/ (alert_threshold b = "90_percent" /\ t = 90)
  \/ (alert_threshold b = "100_percent" /\ t = 100)
  \/ (alert_threshold b = "custom" /\ custom_alert_percentage b = Some t).
Proof.
  unfold configured_threshold.
  destruct (String.eqb_spec (alert_threshold b) "80_percent") as [E | _];
    [intros [= <-]; auto |].
  destruct (String.eqb_spec (alert_threshold b) "90_percent") as [E | _];
    [intros [= <-]; auto |].
  destruct (String.eqb_spec (alert_threshold b) "100_percent") as [E | _];
    [intros [= <-]; auto |].
  destruct (String.eqb_spec (alert_threshold b) "custom") as [E | _];
    [intros H; auto 6 | discriminate].
Qed.

(** With a threshold configured, [should_alert] returns the comparison of
    the spending percentage with it. *)
Lemma should_alert_with_threshold (b : Budget) (t : Q) :
  configured_threshold b = Some t ->
  Budget_should_alert b = Ok (dec_ge (Budget_get_spending_percentage b) t).
Proof.
  intros H.
  destruct (configured_threshold_cases b t H)
    as [[E ->] | [[E ->] | [[E ->] | [E Hc]]]];
    unfold Budget_should_alert; rewrite E; cbn [String.eqb Ascii.eqb Bool.eqb];
    try rewrite Hc; reflexivity.
Qed.

(** Without one, it never returns true. *)
Lemma should_alert_without_threshold (b : Budget) :
  configured_threshold b = None -> Budget_should_alert b <> Ok true.
Proof.
  unfold configured_threshold, Budget_should_alert.
  destruct (String.eqb (alert_threshold b) "80_percent"); [discriminate |].
  destruct (String.eqb (alert_threshold b) "90_percent"); [discriminate |].
  destruct (String.eqb (alert_threshold b) "100_percent"); [discriminate |].
  destruct (String.eqb (alert_threshold b) "custom").
  - intros ->. discriminate.
  - intros _. discriminate.
Qed.

(** C9.  For every budget, [should_alert] returns true exactly when the
    spending percentage has reached the configured threshold: 80 for
    '80_percent', 90 for '90_percent', 100 for '100_percent', the custom
    percentage for 'custom'. *)
Theorem should_alert_reaches_threshold (b : Budget) :
  Budget_should_alert b = Ok true
  <-> exists t : Q,
        configured_threshold b = Some t
        /\ t <= Budget_get_spending_percentage b.
Proof.
  split.
  - intros H. destruct (configured_threshold b) as [t |] eqn:E.
    + exists t. split; [reflexivity |].
      rewrite (should_alert_with_threshold b t E) in H.
      injection H as H. apply dec_ge_spec, H.
    + exfalso. exact (should_alert_without_threshold b E H).
  - intros (t & E & H).
    rewrite (should_alert_with_threshold b t E).
    f_equal. apply dec_ge_spec, H.
Qed.

Example scenario_3 :
  Budget_should_alert (budget_of 1000 950 "90_percent" None) = Ok true
  /\ Budget_get_spending_percentage (budget_of 1000 950 "90_percent" None)
     == 95.
Proof. split; reflexivity. Qed.

(** C10.  [should_alert] is partial: with threshold 'custom' and no
    custom percentage it raises [TypeError]; with 'none', or any value
    outside the four it tests, it returns false. *)
Theorem should_alert_partial :
  (forall b : Budget,
     alert_threshold b = "custom" -> custom_alert_percentage b = None ->
     Budget_should_alert b = Raise TypeError)
  /\ (forall b : Budget,
        alert_threshold b = "none" -> Budget_should_alert b = Ok false)
  /\ (forall b : Budget,
        alert_threshold b <> "80_percent" ->
        alert_threshold b <> "90_percent" ->
        alert_threshold b <> "100_percent" ->
        alert_threshold b <> "custom" ->
        Budget_should_alert b = Ok false).
Proof.
  repeat split; intros b.
  - intros E H. unfold Budget_should_alert. rewrite E, H. reflexivity.
  - intros E. unfold Budget_should_alert. rewrite E. reflexivity.
  - intros H1 H2 H3 H4. unfold Budget_should_alert.
    apply String.eqb_neq in H1, H2, H3, H4.
    rewrite H1, H2, H3, H4. reflexivity.
Qed.

Lemma should_alert_partial_witness :
  Budget_should_alert (budget_of 1000 950 "custom" None) = Raise TypeError
  /\ Budget_should_alert (budget_of 1000 950 "none" None) = Ok false
  /\ Budget_should_alert (budget_of 1000 950 "weekly" None) = Ok false.
Proof.
  destruct should_alert_partial as (Hc & Hn & Hu).
  split; [| split].
  - apply Hc; reflexivity.
  - apply Hn; reflexivity.
  - apply Hu; discriminate.
Defined.

End BudgetProperties.

(** ** goals/models.py *)

Section GoalProperties.

Import Goals Scenarios.

(** C7, as the code has it.  Saving a [GoalContribution] stores the
    contribution with its amount and leaves every goal as it was: the
    goal's [current_amount] is unchanged, hence not decreased. *)
Theorem contribution_save_keeps_goals (c : GoalContribution) (s : State) :
  exists (c' : GoalContribution) (s' : State) (k : Z),
    GoalContribution_save c s = (Ok c', s')
    /\ id c' = Some k
    /\ contribution_table s' !! k = Some c'
    /\ amount c' = amount c
    /\ goal c' = goal c
    /\ goal_table s' = goal_table s
    /\ (forall (g : Z) (x : FinancialGoal),
          goal_table s !! g = Some x ->
          exists x' : FinancialGoal,
            goal_table s' !! g = Some x'
            /\ current_amount x <= current_amount x').
Proof.
  unfold GoalContribution_save. rewrite bind_run. cbn [get].
  destruct (id c) as [k |] eqn:E.
  - exists c, {| goal_table := goal_table s;
                 contribution_table := <[k := c]> (contribution_table s);
                 contribution_seq := contribution_seq s |}, k.
    repeat split; try reflexivity; try exact E.
    + cbn. apply lookup_insert_eq.
    + intros g x Hx. exists x. split; [exact Hx | lra].
  - exists (with_id (contribution_seq s) c),
      {| goal_table := goal_table s;
         contribution_table :=
           <[contribution_seq s := with_id (contribution_seq s) c]>
             (contribution_table s);
         contribution_seq := (contribution_seq s + 1)%Z |},
      (contribution_seq s).
    repeat split; try reflexivity.
    + cbn. apply lookup_insert_eq.
    + intros g x Hx. exists x. split; [exact Hx | lra].
Qed.

(** C7 as stated fails: a contribution of 50.00 to a goal standing at
    0.00 leaves it at 0.00, which is neither 0.00 + 50.00 nor the total
    of the goal's contributions. *)
Lemma contribution_not_added_to_goal :
  exists (c' : GoalContribution) (s' : State) (x' : FinancialGoal),
    GoalContribution_save contribution_50 one_goal = (Ok c', s')
    /\ goal_table s' !! 1%Z = Some x'
    /\ ~ current_amount x' == 0 + amount contribution_50
    /\ ~ current_amount x' == contributions_total 1 s'.
Proof.
  eexists _, _, _. split; [vm_compute; reflexivity |].
  split; [reflexivity |].
  split; intros H; vm_compute in H; discriminate H.
Qed.

Example scenario_4 :
  let g := {| user := 1; name := "G"; target_amount := 5000;
              current_amount := 1250; status := "active" |} in
  FinancialGoal_get_progress_percentage g == 25
  /\ FinancialGoal_get_remaining_amount g == 3750.
Proof. split; reflexivity. Qed.

End GoalProperties.

(** ** Recording a transaction *)

Section RecordingProperties.

Import Accounts Transactions Ledger Scenarios.

(** The validator [MinValueValidator(Decimal('0.01'))] declared on
    [Transaction.amount] is run by the model form of the admin: a form
    whose amount is zero or negative is refused with [ValidationError],
    and nothing is written. *)
Lemma form_refuses_nonpositive_amount (data : TransactionData)
    (s : Transactions.State) :
  Transactions.data_amount data <= 0 ->
  TransactionAdmin_add_view data s = (Raise ValidationError, s).
Proof.
  intros H. apply TransactionAdmin_add_view_invalid.
  destruct (TransactionForm_is_valid data s) eqn:E; [| reflexivity].
  apply TransactionForm_is_valid_spec in E.
  destruct E as (_ & Hmin & _). unfold cent in Hmin. lra.
Qed.

(** C6 at the failing input.  [Transaction.save], which records a
    transaction, runs no validator.  Called on an income of -30.00 for
    account 1, which stands at 100.00, it returns: the account stands at
    70.00 and the transaction is stored with amount -30.00.  Called on
    an income of 0.00 it returns as well and the transaction is stored
    with amount 0.00. *)
Theorem nonpositive_amount_is_recorded :
  (exists (l : loc) (s0 s' : Transactions.State) (t : Transaction loc),
     in_accounts (Account_objects_get 1) books_100 = (Ok l, s0)
     /\ Transaction_save (built (form_of (-30)) l) s0 = (Ok t, s')
     /\ Transactions.amount t = -30
     /\ balance_after t = Some 70
     /\ current_balance <$> account_table (accounts s') !! 1%Z = Some 70
     /\ Transactions.amount <$> transaction_table s' !! 7001%Z
        = Some (-30))
  /\ (exists (l : loc) (s0 s' : Transactions.State) (t : Transaction loc),
        in_accounts (Account_objects_get 1) books_100 = (Ok l, s0)
        /\ Transaction_save (built (form_of 0) l) s0 = (Ok t, s')
        /\ Transactions.amount t = 0
        /\ balance_after t = Some 100
        /\ Transactions.amount <$> transaction_table s' !! 7001%Z
           = Some 0).
Proof.
  split.
  - eexists _, _, _, _. evaluate.
  - eexists _, _, _, _. evaluate.
Qed.

(** What recording does, for every valid form: the effective amount is
    minus the amount for an expense and the amount otherwise; the
    account is credited for an income and debited for anything else;
    [balance_after] is the balance the account then has. *)
Lemma recording_effect (data : TransactionData) (s : Transactions.State)
    (a : Account) :
  TransactionForm_is_valid data s = true ->
  account_table (accounts s) !! data_account data = Some a ->
  exists (t : Transaction loc) (s' : Transactions.State) (a' : Account),
    TransactionAdmin_add_view data s = (Ok t, s')
    /\ effective_amount t
       = Some (if String.eqb (data_transaction_type data) "expense"
               then - Transactions.data_amount data
               else Transactions.data_amount data)
    /\ a' = (if String.eqb (data_transaction_type data) "income"
             then credit (Transactions.data_amount data) a
             else debit (Transactions.data_amount data) a)
    /\ account_table (accounts s') !! data_account data = Some a'
    /\ balance_after t = Some (current_balance a')
    /\ transaction_table s' !! data_id data
       = Some (Transactions.to_row (data_account data) t).
Proof.
  intros Hv Ha.
  rewrite (TransactionAdmin_add_view_run data s a Hv Ha).
  eexists _, _, _. split; [reflexivity |].
  split; [reflexivity |]. split; [reflexivity |].
  split; [cbn; apply lookup_insert_eq |].
  split; [reflexivity |]. cbn. apply lookup_insert_eq.
Qed.

Example scenario_1 :
  exists (t : Transaction loc) (s' : Transactions.State),
    TransactionAdmin_add_view (form_30 "expense" "completed") books_100
    = (Ok t, s')
    /\ effective_amount t = Some (-30)
    /\ balance_after t = Some 70
    /\ current_balance <$> account_table (accounts s') !! 1%Z = Some 70.
Proof. eexists _, _. evaluate. Qed.

(** C4 at the failing input.  A transaction of type 'transfer' for 30.00
    on a balance of 100.00 gets the effective amount +30.00 and yet the
    account is debited: it stands at 70.00, not 130.00. *)
Theorem transfer_typed_transaction_is_debited :
  exists (t : Transaction loc) (s' : Transactions.State),
    TransactionAdmin_add_view (form_30 "transfer" "completed") books_100
    = (Ok t, s')
    /\ effective_amount t = Some 30
    /\ balance_after t = Some 70
    /\ current_balance <$> account_table (accounts s') !! 1%Z = Some 70.
Proof. eexists _, _. evaluate. Qed.

(** C3 at the failing input.  An expense of 30.00 recorded on a balance
    of 100.00 leaves 70.00; saving the same instance again debits the
    account once more and rewrites [balance_after]: both stand at 40.00.
    Likewise a transfer saved twice moves both balances twice. *)
Theorem second_save_applies_delta_again :
  (exists (t1 t2 : Transaction loc) (s1 s2 : Transactions.State),
     TransactionAdmin_add_view (form_30 "expense" "completed") books_100
     = (Ok t1, s1)
     /\ Transaction_save t1 s1 = (Ok t2, s2)
     /\ Transactions.id t2 = Transactions.id t1
     /\ balance_after t1 = Some 70
     /\ current_balance <$> account_table (accounts s1) !! 1%Z = Some 70
     /\ balance_after t2 = Some 40
     /\ current_balance <$> account_table (accounts s2) !! 1%Z = Some 40)
  /\ (exists (x1 x2 : AccountTransfer loc) (s1 s2 : Accounts.State)
             (a1 b1 a2 b2 : Account),
        AccountTransferViewSet_create (transfer_50 1 2) two_accounts
        = (Ok x1, s1)
        /\ AccountTransfer_save x1 s1 = (Ok x2, s2)
        /\ Accounts.id x2 = Accounts.id x1
        /\ account_table s1 !! 1%Z = Some a1
        /\ account_table s1 !! 2%Z = Some b1
        /\ account_table s2 !! 1%Z = Some a2
        /\ account_table s2 !! 2%Z = Some b2
        /\ current_balance a1 == 20 /\ current_balance b1 == 45
        /\ current_balance a2 == -30 /\ current_balance b2 == 90).
Proof.
  split.
  - eexists _, _, _, _. evaluate.
  - eexists _, _, _, _, _, _, _, _. evaluate.
Qed.

End RecordingProperties.

(** ** Transfers *)

Section TransferProperties.

Import Accounts Ledger Scenarios MoreScenarios.

Lemma current_balance_debit (v : Q) (a : Account) :
  current_balance (debit v a) = current_balance a - v.
Proof. reflexivity. Qed.

Lemma current_balance_credit (v : Q) (a : Account) :
  current_balance (credit v a) = current_balance a + v.
Proof. reflexivity. Qed.




Example scenario_2 :
  exists (t : AccountTransfer loc) (s' : State) (a b : Account) (c : Q),
    AccountTransferViewSet_create (transfer_50 1 2) two_accounts = (Ok t, s')
    /\ converted_amount t = Some c
    /\ account_table s' !! 1%Z = Some a
    /\ account_table s' !! 2%Z = Some b
    /\ c == 45 /\ current_balance a == 20 /\ current_balance b == 45.
Proof. eexists _, _, _, _, _. evaluate. Qed.

(** The request of scenario 2 sent without [exchange_rate] passes the
    serializer and fails in [save]: [TypeError], no row written. *)
Remark request_without_rate_raises :
  exists s' : State,
    AccountTransferSerializer_is_valid (transfer_50_no_rate 1 2) two_accounts
    = true
    /\ AccountTransferViewSet_create (transfer_50_no_rate 1 2) two_accounts
       = (Raise TypeError, s')
    /\ account_table s' = account_table two_accounts
    /\ transfer_table s' = ∅.
Proof. eexists. evaluate. Qed.




End TransferProperties.

(** ** The ledger equation *)

Section LedgerEquation.

Import Accounts Transactions Ledger Books Scenarios.

(** C1 at the failing input.  With account 1 at 100.00 and nothing
    recorded the equation [current_balance == initial_balance + Σ
    effective amounts of completed transactions + Σ transfer deltas]
    holds.  Recording an expense of 30.00 whose status is 'pending' debits
    the account all the same: it stands at 70.00 while no completed
    transaction and no transfer exists, and the equation no longer
    holds. *)
Theorem pending_transaction_moves_balance :
  balanced books_100
  /\ exists (t : Transaction loc) (s' : Transactions.State),
       TransactionAdmin_add_view (form_30 "expense" "pending") books_100
       = (Ok t, s')
       /\ current_balance <$> account_table (accounts s') !! 1%Z = Some 70
       /\ effective_total 1 (transaction_table s') = 0
       /\ transfer_total 1 (transfer_table (accounts s')) = 0
       /\ ~ balanced s'.
Proof.
  split.
  - intros k a H. cbn in H.
    apply lookup_singleton_Some in H as [<- <-]. vm_compute. reflexivity.
  - eexists _, _. split; [vm_compute; reflexivity |].
    split; [vm_compute; reflexivity |].
    split; [vm_compute; reflexivity |].
    split; [vm_compute; reflexivity |].
    intros B.
    specialize (B 1%Z (account_with 100 70)).
    assert (H : 70 == 100 + 0 + 0); [| discriminate H].
    apply B. vm_compute. reflexivity.
Qed.

End LedgerEquation.

(** ** The equation is kept by regular requests *)

Section LedgerInvariant.

Import Accounts Transactions Ledger Books.

#[local] Instance Qeq_preorder : PreOrder Qeq.
Proof. split; [exact Qeq_refl | exact Qeq_trans]. Qed.

Lemma effective_total_insert (k i : Z) (row : Transaction Z)
    (m : gmap Z (Transaction Z)) :
  m !! i = None ->
  effective_total k (<[i := row]> m)
  == (if Z.eqb (account row) k && String.eqb (status row) "completed"
      then effective_total k m + default 0 (effective_amount row)
      else effective_total k m).
Proof.
  intros Hi. unfold effective_total.
  apply (map_fold_insert Qeq
           (fun _ t total =>
              if Z.eqb (account t) k && String.eqb (status t) "completed"
              then total + default 0 (effective_amount t) else total)).
  - intros j z x y Hxy. destruct (_ && _); rewrite Hxy; reflexivity.
  - intros j1 j2 z1 z2 y _ _ _.
    destruct (Z.eqb (account z1) k && _), (Z.eqb (account z2) k && _);
      ring.
  - exact Hi.
Qed.

Lemma transfer_total_insert (k i : Z) (row : AccountTransfer Z)
    (m : gmap Z (AccountTransfer Z)) :
  m !! i = None ->
  transfer_total k (<[i := row]> m)
  == transfer_total k m + transfer_delta k row.
Proof.
  intros Hi. unfold transfer_total.
  apply (map_fold_insert Qeq (fun _ x total => total + transfer_delta k x)).
  - intros j z x y Hxy. rewrite Hxy. reflexivity.
  - intros j1 j2 z1 z2 y _ _ _. ring.
  - exact Hi.
Qed.

Lemma in_accounts_snd {A : Type} (m : M Accounts.State A)
    (s : Transactions.State) :
  snd (in_accounts m s) = set_accounts (snd (m (accounts s))) s.
Proof.
  unfold in_accounts, lift. destruct (m (accounts s)). reflexivity.
Qed.

(** Recording a completed income or expense under a new UUID. *)
Lemma record_keeps_balanced (data : TransactionData)
    (s : Transactions.State) :
  balanced s ->
  regular (Record_transaction data) s ->
  balanced (handle (Record_transaction data) s).
Proof.
  intros B (Hst & Hty & Hnew). cbn [handle].
  destruct (TransactionForm_is_valid data s) eqn:Hv.
  2:{ rewrite (TransactionAdmin_add_view_invalid data s Hv). exact B. }
  pose proof (proj1 (TransactionForm_is_valid_spec data s) Hv)
    as (_ & _ & _ & [a Ha] & _).
  rewrite (TransactionAdmin_add_view_run data s a Hv Ha). cbn [snd].
  intros k b Hb. cbn in Hb. cbn [transaction_table set_transaction_table
    accounts set_accounts transfer_table written loaded set_instances].
  rewrite effective_total_insert by exact Hnew.
  cbn [account status effective_amount Transactions.to_row stamped
       with_balance_after with_effective_amount built default
       transaction_type Transactions.amount].
  rewrite Hst. cbn [String.eqb Ascii.eqb Bool.eqb]. rewrite andb_true_r.
  destruct (Z.eqb_spec (data_account data) k) as [<- | Hne].
  - rewrite lookup_insert_eq in Hb. injection Hb as <-.
    pose proof (B _ _ Ha) as Ba.
    unfold moved, signed.
    destruct Hty as [-> | ->]; cbn [String.eqb Ascii.eqb Bool.eqb];
      cbn [credit debit current_balance initial_balance
           with_current_balance]; rewrite Ba; unfold Datatypes.id; ring.
  - rewrite lookup_insert_ne in Hb by exact Hne.
    exact (B _ _ Hb).
Qed.

(** A transfer between two different accounts. *)
Lemma transfer_keeps_balanced (data : TransferData)
    (s : Transactions.State) :
  balanced s ->
  sequence_ahead (accounts s) ->
  regular (Apply_transfer data) s ->
  balanced (handle (Apply_transfer data) s)
  /\ sequence_ahead (accounts (handle (Apply_transfer data) s)).
Proof.
  intros B Hseq Hne. cbn [handle regular] in *.
  rewrite in_accounts_snd.
  destruct (AccountTransferSerializer_is_valid data (accounts s)) eqn:Hv.
  2:{ rewrite (AccountTransferViewSet_create_invalid data _ Hv).
      cbn [snd]. destruct s; split; assumption. }
  pose proof (proj1 (AccountTransferSerializer_is_valid_spec data _) Hv)
    as ([f Hf] & [g Hg] & _).
  destruct (data_exchange_rate data) as [rate |] eqn:Hr.
  2:{ rewrite (AccountTransferViewSet_create_default data _ f g Hr Hv Hf Hg).
      cbn [snd]. split; [exact B | exact Hseq]. }
  rewrite (AccountTransferViewSet_create_run data _ rate f g Hr Hv Hf Hg).
  cbn [snd]. split.
  - intros k b Hb. cbn in Hb.
    cbn [transaction_table set_accounts accounts transfer_table filed
         set_transfers].
    rewrite transfer_total_insert by (apply Hseq; lia).
    unfold transfer_delta, default, from_option, Datatypes.id.
    cbn [from_account to_account Accounts.amount converted_amount
         Accounts.to_row default].
    destruct (Z.eqb_spec (data_to_account data) k) as [<- | Hk2].
    + rewrite lookup_insert_eq in Hb. injection Hb as <-.
      destruct (Z.eqb_spec (data_from_account data) (data_to_account data))
        as [E | _]; [contradiction |].
      pose proof (B _ _ Hg) as Bg.
      cbn [credit current_balance initial_balance with_current_balance].
      rewrite Bg. cbn [transfer_table written loaded set_instances]. ring.
    + rewrite lookup_insert_ne in Hb by exact Hk2.
      destruct (Z.eqb_spec (data_from_account data) k) as [<- | Hk1].
      * rewrite lookup_insert_eq in Hb. injection Hb as <-.
        pose proof (B _ _ Hf) as Bf.
        cbn [debit current_balance initial_balance with_current_balance].
        rewrite Bf. cbn [transfer_table written loaded set_instances]. ring.
      * rewrite lookup_insert_ne in Hb by exact Hk1.
        rewrite (B _ _ Hb).
        cbn [transfer_table written loaded set_instances]. ring.
  - intros k Hk. cbn in Hk |- *.
    rewrite lookup_insert_ne by lia. apply Hseq. lia.
Qed.

Lemma record_keeps_sequence (data : TransactionData)
    (s : Transactions.State) :
  sequence_ahead (accounts s) ->
  sequence_ahead (accounts (handle (Record_transaction data) s)).
Proof.
  intros Hseq. cbn [handle].
  destruct (TransactionForm_is_valid data s) eqn:Hv.
  2:{ rewrite (TransactionAdmin_add_view_invalid data s Hv). exact Hseq. }
  pose proof (proj1 (TransactionForm_is_valid_spec data s) Hv)
    as (_ & _ & _ & [a Ha] & _).
  rewrite (TransactionAdmin_add_view_run data s a Hv Ha). exact Hseq.
Qed.

(** Where the code does keep the ledger equation: from a state in which
    it holds, every sequence of regular requests leads to a state in
    which it holds. *)
Theorem regular_requests_keep_balanced (qs : list Request)
    (s : Transactions.State) :
  balanced s ->
  sequence_ahead (accounts s) ->
  all_regular qs s ->
  balanced (serve qs s).
Proof.
  revert s. induction qs as [| q rest IH]; intros s B Hseq Hreg.
  - exact B.
  - destruct Hreg as [Hq Hrest]. cbn [serve]. apply IH; [| | exact Hrest].
    + destruct q as [data | data].
      * apply record_keeps_balanced; assumption.
      * apply transfer_keeps_balanced; assumption.
    + destruct q as [data | data].
      * apply record_keeps_sequence; assumption.
      * apply transfer_keeps_balanced; assumption.
Qed.

End LedgerInvariant.

Section LedgerExamples.

Import Accounts Transactions Books Scenarios.

(** The equation after an income of 30.00 on account 1 and a transfer of
    50.00 at 0.90 from account 1 to account 2. *)
Example regular_requests_example :
  balanced
    (serve [Record_transaction (form_30 "income" "completed");
            Apply_transfer (transfer_50 1 2)]
       books_two).
Proof.
  apply regular_requests_keep_balanced.
  - intros k a H. cbn in H.
    apply lookup_insert_Some in H as [[<- <-] | [_ H]].
    + vm_compute. reflexivity.
    + apply lookup_singleton_Some in H as [<- <-]. vm_compute. reflexivity.
  - intros k _. cbn. apply lookup_empty.
  - cbn [all_regular regular]. split; [| split; [| exact I]].
    + split; [reflexivity |]. split; [left; reflexivity |].
      cbn. apply lookup_empty.
    + cbn. discriminate.
Qed.

(** The admin action recomputes the balance from the completed
    transactions: after the pending expense of 30.00 it puts account 1
    back at 100.00. *)
Remark recalculate_balances_after_pending :
  exists (t : Transaction loc) (s1 s2 : Transactions.State),
    TransactionAdmin_add_view (form_30 "expense" "pending") books_100
    = (Ok t, s1)
    /\ AccountsAdmin.recalculate_balances [1%Z] s1 = (Ok tt, s2)
    /\ current_balance <$> account_table (accounts s1) !! 1%Z = Some 70
    /\ current_balance <$> account_table (accounts s2) !! 1%Z = Some 100.
Proof. eexists _, _, _. evaluate. Qed.

End LedgerExamples.

(** * Further properties *)

(** ** Budgets: colours, alerts and the admin filter *)

Section BudgetViewProperties.

Import Budgets BudgetViews BudgetsAdmin Scenarios.

(** The colour as a function of the percentage. *)
Lemma status_color_cases (b : Budget) :
  let p := Budget_get_spending_percentage b in
  (100 <= p /\ Budget_get_status_color b = "#dc3545")
  \/ (90 <= p < 100 /\ Budget_get_status_color b = "#fd7e14")
  \/ (80 <= p < 90 /\ Budget_get_status_color b = "#ffc107")
  \/ (p < 80 /\ Budget_get_status_color b = "#28a745").
Proof.
  intros p. unfold Budget_get_status_color. fold p.
  destruct (dec_ge p 100) eqn:E1.
  { left. split; [apply dec_ge_spec, E1 | reflexivity]. }
  assert (H1 : p < 100).
  { apply Qnot_le_lt. intros H. apply dec_ge_spec in H. congruence. }
  destruct (dec_ge p 90) eqn:E2.
  { right. left. apply dec_ge_spec in E2. repeat split; assumption. }
  assert (H2 : p < 90).
  { apply Qnot_le_lt. intros H. apply dec_ge_spec in H. congruence. }
  destruct (dec_ge p 80) eqn:E3.
  { right. right. left. apply dec_ge_spec in E3. repeat split; assumption. }
  right. right. right. split; [| reflexivity].
  apply Qnot_le_lt. intros H. apply dec_ge_spec in H. congruence.
Qed.

(** The alert of a budget and its colour agree: with threshold
    '80_percent' the alert is on exactly when the colour is not green,
    with '90_percent' exactly when it is orange or red, with
    '100_percent' exactly when it is red. *)
Theorem alert_agrees_with_status_color (b : Budget) :
  (alert_threshold b = "80_percent" ->
   (Budget_should_alert b = Ok true
    <-> Budget_get_status_color b <> "#28a745"))
  /\ (alert_threshold b = "90_percent" ->
      (Budget_should_alert b = Ok true
       <-> Budget_get_status_color b = "#fd7e14"
           \/ Budget_get_status_color b = "#dc3545"))
  /\ (alert_threshold b = "100_percent" ->
      (Budget_should_alert b = Ok true
       <-> Budget_get_status_color b = "#dc3545")).
Proof.
  assert (Hs : forall t, configured_threshold b = Some t ->
               (Budget_should_alert b = Ok true
                <-> t <= Budget_get_spending_percentage b)).
  { intros t Ht. rewrite (should_alert_with_threshold b t Ht).
    rewrite <- dec_ge_spec. split; [intros [= ->]; reflexivity | intros ->; reflexivity]. }
  pose proof (status_color_cases b) as Hc. cbn zeta in Hc.
  split; [| split]; intros E.
  - rewrite (Hs 80) by (unfold configured_threshold; rewrite E; reflexivity).
    destruct Hc as [[H ->] | [[H ->] | [[H ->] | [H ->]]]];
      (split; [intros ?; try discriminate; lra | intros ?; try lra; congruence]).
  - rewrite (Hs 90) by (unfold configured_threshold; rewrite E; reflexivity).
    destruct Hc as [[H ->] | [[H ->] | [[H ->] | [H ->]]]];
      (split; [intros ?; auto; lra | intros [? | ?]; try lra; discriminate]).
  - rewrite (Hs 100) by (unfold configured_threshold; rewrite E; reflexivity).
    destruct Hc as [[H ->] | [[H ->] | [[H ->] | [H ->]]]];
      (split; [intros ?; try reflexivity; lra | intros ?; try lra; discriminate]).
Qed.

Lemma alert_agrees_with_status_color_witness :
  (Budget_should_alert (budget_of 1000 950 "90_percent" None) = Ok true
   <-> Budget_get_status_color (budget_of 1000 950 "90_percent" None)
       = "#fd7e14"
       \/ Budget_get_status_color (budget_of 1000 950 "90_percent" None)
          = "#dc3545").
Proof.
  apply (proj1 (proj2 (alert_agrees_with_status_color
                         (budget_of 1000 950 "90_percent" None)))).
  reflexivity.
Defined.

(** The percentage of a budget whose total is positive. *)
Lemma percentage_over_100 (spent total : Q) :
  0 < total -> (100 < spent / total * 100 <-> total < spent).
Proof.
  intros Ht. split; intros H.
  - assert (E : spent == spent / total * total) by (field; lra).
    assert (1 < spent / total) by lra.
    rewrite E. nra.
  - assert (1 < spent / total); [| lra].
    apply Qlt_shift_div_l; lra.
Qed.

(** A budget is over budget exactly when its remaining amount is
    negative and, its total being positive, exactly when its percentage
    exceeds 100; it is then red and every fixed threshold alerts. *)
Theorem over_budget_characterised (b : Budget) :
  (Budget_is_over_budget b = true <-> Budget_get_remaining_amount b < 0)
  /\ (0 < total_budget b ->
      (Budget_is_over_budget b = true
       <-> 100 < Budget_get_spending_percentage b)
      /\ (Budget_is_over_budget b = true ->
          Budget_get_status_color b = "#dc3545"
          /\ forall t : Q,
               configured_threshold b = Some t -> t <= 100 ->
               Budget_should_alert b = Ok true)).
Proof.
  split.
  - unfold Budget_is_over_budget, Budget_get_remaining_amount.
    rewrite dec_gt_spec. split; intros H; lra.
  - intros Hb.
    assert (Hp : Budget_get_spending_percentage b
                 = total_spent b / total_budget b * 100).
    { unfold Budget_get_spending_percentage.
      destruct (dec_eq (total_budget b) 0) eqn:E; [| reflexivity].
      apply dec_eq_spec in E. lra. }
    assert (Ho : Budget_is_over_budget b = true
                 <-> 100 < Budget_get_spending_percentage b).
    { unfold Budget_is_over_budget. rewrite dec_gt_spec, Hp.
      symmetry. apply percentage_over_100, Hb. }
    split; [exact Ho |].
    intros H. apply Ho in H. split.
    + destruct (status_color_cases b) as [[_ ->] | [[? _] | [[? _] | [? _]]]];
        [reflexivity | lra | lra | lra].
    + intros t Ht Hle. rewrite (should_alert_with_threshold b t Ht).
      f_equal. apply dec_ge_spec. lra.
Qed.

Lemma over_budget_characterised_witness :
  Budget_is_over_budget (budget_of 1000 1200 "90_percent" None) = true
  <-> 100 < Budget_get_spending_percentage
              (budget_of 1000 1200 "90_percent" None).
Proof.
  apply (proj2 (over_budget_characterised
                  (budget_of 1000 1200 "90_percent" None))).
  reflexivity.
Defined.

(** A budget whose total is zero has percentage 0 and is green, and no
    fixed threshold alerts, whatever was spent: also when it is over
    budget. *)
Theorem zero_budget_never_alerts (b : Budget) :
  total_budget b == 0 ->
  Budget_get_spending_percentage b = 0
  /\ Budget_get_status_color b = "#28a745"
  /\ (forall t : Q,
        configured_threshold b = Some t -> 0 < t ->
        Budget_should_alert b = Ok false)
  /\ (Budget_is_over_budget b = true <-> 0 < total_spent b).
Proof.
  intros Hz.
  assert (Hp : Budget_get_spending_percentage b = 0).
  { unfold Budget_get_spending_percentage.
    apply dec_eq_spec in Hz. rewrite Hz. reflexivity. }
  split; [exact Hp |]. split; [| split].
  - unfold Budget_get_status_color. rewrite Hp. reflexivity.
  - intros t Ht Hpos. rewrite (should_alert_with_threshold b t Ht), Hp.
    f_equal. destruct (dec_ge 0 t) eqn:E; [| reflexivity].
    apply dec_ge_spec in E. lra.
  - unfold Budget_is_over_budget. rewrite dec_gt_spec. split; intros H; lra.
Qed.

Lemma zero_budget_never_alerts_witness :
  Budget_get_status_color (budget_of 0 500 "80_percent" None) = "#28a745"
  /\ Budget_should_alert (budget_of 0 500 "80_percent" None) = Ok false
  /\ Budget_is_over_budget (budget_of 0 500 "80_percent" None) = true.
Proof.
  destruct (zero_budget_never_alerts (budget_of 0 500 "80_percent" None))
    as (_ & Hc & Ha & Ho); [reflexivity |].
  split; [exact Hc |]. split.
  - apply (Ha 80); reflexivity.
  - apply Ho. reflexivity.
Defined.

(** A budget category is over budget exactly when its remaining amount
    is negative; with a positive allocation, exactly when its percentage
    exceeds 100; with a zero allocation its percentage is 0 whatever was
    spent. *)
Theorem category_over_budget_characterised (c : BudgetCategory) :
  (BudgetCategory_is_over_budget c = true
   <-> BudgetCategory_get_remaining_amount c < 0)
  /\ (0 < allocated_amount c ->
      (BudgetCategory_is_over_budget c = true
       <-> 100 < BudgetCategory_get_spending_percentage c))
  /\ (allocated_amount c == 0 ->
      BudgetCategory_get_spending_percentage c = 0).
Proof.
  unfold BudgetCategory_is_over_budget, BudgetCategory_get_remaining_amount,
    BudgetCategory_get_spending_percentage.
  split; [| split].
  - rewrite dec_gt_spec. split; intros H; lra.
  - intros Ha. rewrite dec_gt_spec.
    destruct (dec_eq (allocated_amount c) 0) eqn:E.
    + apply dec_eq_spec in E. lra.
    + symmetry. apply percentage_over_100, Ha.
  - intros Hz. apply dec_eq_spec in Hz. rewrite Hz. reflexivity.
Qed.

Lemma category_over_budget_characterised_witness :
  BudgetCategory_is_over_budget
    {| budget := 1; category := 1; allocated_amount := 200;
       spent_amount := 250 |} = true
  <-> 100 < BudgetCategory_get_spending_percentage
              {| budget := 1; category := 1; allocated_amount := 200;
                 spent_amount := 250 |}.
Proof.
  apply (proj1 (proj2 (category_over_budget_characterised
                         {| budget := 1; category := 1;
                            allocated_amount := 200;
                            spent_amount := 250 |}))).
  reflexivity.
Defined.

(** The admin filter 'over_budget' keeps exactly the budgets of the list
    for which [is_over_budget] holds, and every budget it keeps whose
    total is not negative is also kept by 'near_limit'. *)
Theorem over_budget_filter_agrees (queryset : list Budget) (b : Budget) :
  (exists l : list Budget,
     BudgetStatusFilter_queryset (Some "over_budget") queryset = Some l
     /\ (In b l <-> In b queryset /\ Budget_is_over_budget b = true))
  /\ (exists l l' : list Budget,
        BudgetStatusFilter_queryset (Some "over_budget") queryset = Some l
        /\ BudgetStatusFilter_queryset (Some "near_limit") queryset = Some l'
        /\ (0 <= total_budget b -> In b l -> In b l')).
Proof.
  split.
  - eexists. split; [reflexivity |]. apply filter_In.
  - eexists _, _. split; [reflexivity |]. split; [reflexivity |].
    intros Hb H. apply filter_In in H as [Hin H]. apply filter_In.
    split; [exact Hin |]. apply dec_gt_spec in H. apply dec_ge_spec. nra.
Qed.

Lemma over_budget_filter_agrees_witness :
  exists l l' : list Budget,
    BudgetStatusFilter_queryset (Some "over_budget")
      [budget_of 1000 1200 "none" None; budget_of 1000 950 "none" None]
    = Some l
    /\ BudgetStatusFilter_queryset (Some "near_limit")
         [budget_of 1000 1200 "none" None; budget_of 1000 950 "none" None]
       = Some l'
    /\ (In (budget_of 1000 1200 "none" None) l ->
        In (budget_of 1000 1200 "none" None) l').
Proof.
  destruct (proj2 (over_budget_filter_agrees
                     [budget_of 1000 1200 "none" None;
                      budget_of 1000 950 "none" None]
                     (budget_of 1000 1200 "none" None)))
    as (l & l' & E & E' & H).
  exists l, l'. split; [exact E |]. split; [exact E' |].
  apply H. cbn. lra.
Defined.

(** For a budget of the list whose total is positive, the filters
    'near_limit', 'on_track' and 'under_spent' exclude one another; one of
    them keeps the budget unless exactly half of the total was spent, and
    then none does.  A value the filter does not know leaves the list
    unfiltered. *)
Theorem status_filters_leave_a_gap (queryset : list Budget) (b : Budget) :
  (In b queryset -> 0 < total_budget b ->
   ~ (kept_by "near_limit" queryset b /\ kept_by "on_track" queryset b)
   /\ ~ (kept_by "near_limit" queryset b /\ kept_by "under_spent" queryset b)
   /\ ~ (kept_by "on_track" queryset b /\ kept_by "under_spent" queryset b)
   /\ (total_spent b == total_budget b * (5 # 10) <->
       ~ (kept_by "near_limit" queryset b
          \/ kept_by "on_track" queryset b
          \/ kept_by "under_spent" queryset b)))
  /\ (forall v : string,
        v <> "over_budget" -> v <> "near_limit" -> v <> "on_track" ->
        v <> "under_spent" ->
        BudgetStatusFilter_queryset (Some v) queryset = None)
  /\ BudgetStatusFilter_queryset None queryset = None.
Proof.
  split; [| split; [| reflexivity]].
  - intros Hin Hb.
    assert (Hn : kept_by "near_limit" queryset b
                 <-> total_budget b * (9 # 10) <= total_spent b).
    { unfold kept_by. cbn. split.
      - intros (l & [= <-] & H). apply filter_In in H as [_ H].
        apply dec_ge_spec, H.
      - intros H. eexists. split; [reflexivity |]. apply filter_In.
        split; [exact Hin | apply dec_ge_spec, H]. }
    assert (Ho : kept_by "on_track" queryset b
                 <-> total_spent b < total_budget b * (9 # 10)
                     /\ total_budget b * (5 # 10) < total_spent b).
    { unfold kept_by. cbn. split.
      - intros (l & [= <-] & H). apply filter_In in H as [_ H].
        apply andb_true_iff in H as [H1 H2].
        split; [apply dec_lt_spec, H1 | apply dec_gt_spec, H2].
      - intros [H1 H2]. eexists. split; [reflexivity |]. apply filter_In.
        split; [exact Hin |]. apply andb_true_iff.
        split; [apply dec_lt_spec, H1 | apply dec_gt_spec, H2]. }
    assert (Hu : kept_by "under_spent" queryset b
                 <-> total_spent b < total_budget b * (5 # 10)).
    { unfold kept_by. cbn. split.
      - intros (l & [= <-] & H). apply filter_In in H as [_ H].
        apply dec_lt_spec, H.
      - intros H. eexists. split; [reflexivity |]. apply filter_In.
        split; [exact Hin | apply dec_lt_spec, H]. }
    rewrite Hn, Ho, Hu.
    split; [lra |]. split; [lra |]. split; [lra |].
    split.
    + intros E [H | [[H1 H2] | H]]; lra.
    + intros H.
      destruct (Qlt_le_dec (total_spent b) (total_budget b * (5 # 10)))
        as [Hlt | Hge]; [exfalso; apply H; right; right; exact Hlt |].
      destruct (Qlt_le_dec (total_budget b * (5 # 10)) (total_spent b))
        as [Hgt | Hle]; [| lra].
      exfalso. apply H.
      destruct (Qlt_le_dec (total_spent b) (total_budget b * (9 # 10)))
        as [H9 | H9]; [right; left; split; assumption | left; exact H9].
  - intros v H1 H2 H3 H4. cbn.
    apply String.eqb_neq in H1, H2, H3, H4.
    rewrite H1, H2, H3, H4. reflexivity.
Qed.

Lemma status_filters_leave_a_gap_witness :
  ~ (kept_by "near_limit" [budget_of 1000 500 "none" None]
       (budget_of 1000 500 "none" None)
     \/ kept_by "on_track" [budget_of 1000 500 "none" None]
          (budget_of 1000 500 "none" None)
     \/ kept_by "under_spent" [budget_of 1000 500 "none" None]
          (budget_of 1000 500 "none" None)).
Proof.
  destruct (status_filters_leave_a_gap [budget_of 1000 500 "none" None]
              (budget_of 1000 500 "none" None)) as [H _].
  destruct H as (_ & _ & _ & H); [left; reflexivity | reflexivity |].
  apply H. reflexivity.
Defined.

End BudgetViewProperties.

(** ** Goals: progress and schedule *)

Section GoalScheduleProperties.

Import Goals GoalSchedule.

(** The status as a function of the percentage. *)
Lemma progress_status_cases (g : FinancialGoal) :
  let p := FinancialGoal_get_progress_percentage g in
  (100 <= p /\ FinancialGoal_get_progress_status g = ("completed", "#28a745"))
  \/ (75 <= p < 100
      /\ FinancialGoal_get_progress_status g = ("on_track", "#17a2b8"))
  \/ (50 <= p < 75
      /\ FinancialGoal_get_progress_status g = ("progress", "#ffc107"))
  \/ (25 <= p < 50
      /\ FinancialGoal_get_progress_status g = ("starting", "#fd7e14"))
  \/ (p < 25 /\ FinancialGoal_get_progress_status g = ("behind", "#dc3545")).
Proof.
  intros p. unfold FinancialGoal_get_progress_status. fold p.
  assert (N : forall t, dec_ge p t = false -> p < t).
  { intros t E. apply Qnot_le_lt. intros H. apply dec_ge_spec in H.
    congruence. }
  destruct (dec_ge p 100) eqn:E1.
  { left. split; [apply dec_ge_spec, E1 | reflexivity]. }
  apply N in E1.
  destruct (dec_ge p 75) eqn:E2.
  { right. left. apply dec_ge_spec in E2. repeat split; assumption. }
  apply N in E2.
  destruct (dec_ge p 50) eqn:E3.
  { right. right. left. apply dec_ge_spec in E3. repeat split; assumption. }
  apply N in E3.
  destruct (dec_ge p 25) eqn:E4.
  { right. right. right. left. apply dec_ge_spec in E4.
    repeat split; assumption. }
  apply N in E4. right. right. right. right. split; [exact E4 | reflexivity].
Qed.

Lemma progress_percentage_positive_target (g : FinancialGoal) :
  0 < target_amount g ->
  FinancialGoal_get_progress_percentage g
  = current_amount g / target_amount g * 100.
Proof.
  intros H. unfold FinancialGoal_get_progress_percentage.
  destruct (dec_eq (target_amount g) 0) eqn:E; [| reflexivity].
  apply dec_eq_spec in E. lra.
Qed.

(** A goal with a positive target has status 'completed' exactly when
    the current amount has reached the target, that is when nothing
    remains. *)
Theorem completed_when_target_reached (g : FinancialGoal) :
  0 < target_amount g ->
  (fst (FinancialGoal_get_progress_status g) = "completed"
   <-> target_amount g <= current_amount g)
  /\ (fst (FinancialGoal_get_progress_status g) = "completed"
      <-> FinancialGoal_get_remaining_amount g <= 0).
Proof.
  intros Ht.
  assert (Hp : 100 <= FinancialGoal_get_progress_percentage g
               <-> target_amount g <= current_amount g).
  { rewrite (progress_percentage_positive_target g Ht).
    assert (1 <= current_amount g / target_amount g
            <-> target_amount g <= current_amount g).
    { split; intros H.
      - assert (E : current_amount g
                    == current_amount g / target_amount g * target_amount g)
          by (field; lra).
        rewrite E. nra.
      - apply Qle_shift_div_l; lra. }
    split; intros H0; [apply H; lra | apply H in H0; lra]. }
  assert (Hc : fst (FinancialGoal_get_progress_status g) = "completed"
               <-> 100 <= FinancialGoal_get_progress_percentage g).
  { destruct (progress_status_cases g)
      as [[H ->] | [[H ->] | [[H ->] | [[H ->] | [H ->]]]]]; cbn [fst];
      (split; [intros ?; try discriminate; try assumption
              | intros ?; try reflexivity; lra]). }
  split.
  - rewrite Hc. exact Hp.
  - rewrite Hc, Hp. unfold FinancialGoal_get_remaining_amount.
    split; intros H; lra.
Qed.

Lemma completed_when_target_reached_witness :
  fst (FinancialGoal_get_progress_status (goal_of 5000 5000)) = "completed"
  <-> FinancialGoal_get_remaining_amount (goal_of 5000 5000) <= 0.
Proof.
  apply (proj2 (completed_when_target_reached (goal_of 5000 5000)
                  ltac:(reflexivity))).
Defined.

(** A goal whose target is zero has percentage 0 and is 'behind'
    whatever it holds: also when it holds something and nothing
    remains. *)
Theorem zero_target_is_behind (g : FinancialGoal) :
  target_amount g == 0 ->
  FinancialGoal_get_progress_percentage g = 0
  /\ FinancialGoal_get_progress_status g = ("behind", "#dc3545")
  /\ (0 <= current_amount g -> FinancialGoal_get_remaining_amount g <= 0).
Proof.
  intros Hz.
  assert (Hp : FinancialGoal_get_progress_percentage g = 0).
  { unfold FinancialGoal_get_progress_percentage.
    apply dec_eq_spec in Hz. rewrite Hz. reflexivity. }
  split; [exact Hp |]. split.
  - unfold FinancialGoal_get_progress_status. rewrite Hp. reflexivity.
  - unfold FinancialGoal_get_remaining_amount. intros H. lra.
Qed.

Lemma zero_target_is_behind_witness :
  FinancialGoal_get_progress_status (goal_of 0 100) = ("behind", "#dc3545")
  /\ FinancialGoal_get_remaining_amount (goal_of 0 100) <= 0.
Proof.
  destruct (zero_target_is_behind (goal_of 0 100)) as (_ & Hs & Hr);
    [reflexivity |].
  split; [exact Hs |]. apply Hr. discriminate.
Defined.

(** Of two goals with the same positive target, the one holding more has
    a status at least as high. *)
Theorem progress_status_monotone (g1 g2 : FinancialGoal) :
  0 < target_amount g1 ->
  target_amount g1 == target_amount g2 ->
  current_amount g1 <= current_amount g2 ->
  (status_rank (fst (FinancialGoal_get_progress_status g1))
   <= status_rank (fst (FinancialGoal_get_progress_status g2)))%nat.
Proof.
  intros Ht Heq Hc.
  assert (Ht2 : 0 < target_amount g2) by lra.
  assert (Hp : FinancialGoal_get_progress_percentage g1
               <= FinancialGoal_get_progress_percentage g2).
  { rewrite (progress_percentage_positive_target g1 Ht),
      (progress_percentage_positive_target g2 Ht2).
    assert (current_amount g1 / target_amount g1
            <= current_amount g2 / target_amount g2); [| lra].
    rewrite <- Heq. apply Qle_shift_div_l; [lra |].
    assert (E : current_amount g1 / target_amount g1 * target_amount g1
                == current_amount g1) by (field; lra).
    rewrite E. exact Hc. }
  destruct (progress_status_cases g1)
    as [[H1 ->] | [[H1 ->] | [[H1 ->] | [[H1 ->] | [H1 ->]]]]];
    destruct (progress_status_cases g2)
      as [[H2 ->] | [[H2 ->] | [[H2 ->] | [[H2 ->] | [H2 ->]]]]];
    cbn; solve [lia | exfalso; lra].
Qed.

Lemma progress_status_monotone_witness :
  (status_rank (fst (FinancialGoal_get_progress_status (goal_of 5000 1250)))
   <= status_rank
        (fst (FinancialGoal_get_progress_status (goal_of 5000 4000))))%nat.
Proof.
  apply (progress_status_monotone (goal_of 5000 1250) (goal_of 5000 4000)).
  - reflexivity.
  - reflexivity.
  - cbn. lra.
Defined.

(** The divisor of [get_monthly_progress_needed]: the integer 1 up to
    30 days, the float from 31 days on. *)
Lemma divisor_up_to_30_days (d : Z) :
  (d <= 30)%Z ->
  py_max (PyFloat (inject_Z d / (3044 # 100))) (PyInt 1) = PyInt 1.
Proof.
  intros Hd. unfold py_max.
  assert (E : dec_gt (value (PyInt 1))
                (value (PyFloat (inject_Z d / (3044 # 100)))) = true).
  { apply dec_gt_spec. cbn [value].
    apply Qlt_shift_div_r; [reflexivity |].
    assert (inject_Z d <= inject_Z 30) by (rewrite <- Zle_Qle; lia).
    assert (inject_Z 30 == 30) by reflexivity.
    assert (inject_Z 1 == 1) by reflexivity. lra. }
  rewrite E. reflexivity.
Qed.

Lemma divisor_from_31_days (d : Z) :
  (31 <= d)%Z ->
  py_max (PyFloat (inject_Z d / (3044 # 100))) (PyInt 1)
  = PyFloat (inject_Z d / (3044 # 100)).
Proof.
  intros Hd. unfold py_max.
  destruct (dec_gt (value (PyInt 1))
              (value (PyFloat (inject_Z d / (3044 # 100))))) eqn:E;
    [| reflexivity].
  apply dec_gt_spec in E. cbn [value] in E. exfalso.
  assert (inject_Z 31 <= inject_Z d) by (rewrite <- Zle_Qle; lia).
  assert (inject_Z 31 == 31) by reflexivity.
  assert (inject_Z 1 == 1) by reflexivity.
  assert (1 < inject_Z d / (3044 # 100)); [| lra].
  apply Qlt_shift_div_l; [reflexivity | lra].
Qed.

(** With at most 30 days left, or the date passed,
    [get_monthly_progress_needed] returns the remaining amount; with 31
    days or more the divisor is a float and dividing the decimal by it
    raises [TypeError]. *)
Theorem monthly_progress_needed_cases (today : Z) (self : Dated) :
  ((FinancialGoal_get_days_remaining today self <= 30)%Z ->
   exists x : Q,
     FinancialGoal_get_monthly_progress_needed today self = Returns x
     /\ x == FinancialGoal_get_remaining_amount (columns self))
  /\ ((31 <= FinancialGoal_get_days_remaining today self)%Z ->
      FinancialGoal_get_monthly_progress_needed today self
      = Raises PyTypeError).
Proof.
  unfold FinancialGoal_get_monthly_progress_needed.
  set (d := FinancialGoal_get_days_remaining today self).
  split; intros Hd.
  - destruct (Z.leb_spec d 0) as [H0 | H0].
    + eexists. split; [reflexivity | reflexivity].
    + rewrite (divisor_up_to_30_days d Hd). cbn.
      eexists. split; [reflexivity |].
      assert (inject_Z 1 == 1) by reflexivity. field.
  - destruct (Z.leb_spec d 0) as [H0 | H0]; [lia |].
    rewrite (divisor_from_31_days d Hd). reflexivity.
Qed.

Lemma monthly_progress_needed_cases_witness :
  (exists x : Q,
     FinancialGoal_get_monthly_progress_needed 100 goal_due_in_20
     = Returns x
     /\ x == FinancialGoal_get_remaining_amount (columns goal_due_in_20))
  /\ FinancialGoal_get_monthly_progress_needed 0 goal_due_in_20
     = Raises PyTypeError.
Proof.
  split.
  - apply (proj1 (monthly_progress_needed_cases 100 goal_due_in_20)).
    vm_compute. discriminate.
  - apply (proj2 (monthly_progress_needed_cases 0 goal_due_in_20)).
    vm_compute. discriminate.
Defined.

(** [is_behind_schedule] never returns: either
    [get_monthly_progress_needed] raises [TypeError], or the product of
    the decimal [expected_amount] with the float 0.8 does. *)
Theorem is_behind_schedule_always_raises (today : Z) (self : Dated) :
  FinancialGoal_is_behind_schedule today self = Raises PyTypeError.
Proof.
  unfold FinancialGoal_is_behind_schedule,
    FinancialGoal_get_monthly_progress_needed.
  set (d := FinancialGoal_get_days_remaining today self).
  destruct (Z.leb_spec d 0) as [H0 | H0]; [reflexivity |].
  destruct (Z_le_gt_dec d 30) as [H | H].
  - rewrite (divisor_up_to_30_days d H). reflexivity.
  - rewrite (divisor_from_31_days d) by lia. reflexivity.
Qed.

End GoalScheduleProperties.

(** ** Recording: what else [Transaction.save] does and does not *)

Section RecordingComposition.

Import Accounts Transactions Ledger Scenarios MoreScenarios.

(** [Transaction.save] writes the row of its account and the row of its
    own id, and nothing else.  The instance gets its effective amount
    and, as [balance_after], the balance its account object then holds:
    the balance before plus the amount for an income, less the amount
    otherwise.  The row of the account holds that balance and the row of
    the transaction the values of the instance, as far as the columns
    keep them.  Every other account, every other transaction, the
    transfers and their sequence are as before, and the instance keeps
    its id, amount, type and status. *)
Theorem recording_touches_one_account (t : Transaction loc) (i : Instance)
    (s : Transactions.State) :
  instances (accounts s) !! account t = Some i ->
  exists (t' : Transaction loc) (s' : Transactions.State) (a' a'' : Account)
         (row : Transaction Z) (b e : Q),
    Transaction_save t s = (Ok t', s')
    /\ effective_amount t' = Some e
    /\ e == (if String.eqb (transaction_type t) "expense"
             then - Transactions.amount t else Transactions.amount t)
    /\ balance_after t' = Some b
    /\ b == (if String.eqb (transaction_type t) "income"
             then current_balance (attrs i) + Transactions.amount t
             else current_balance (attrs i) - Transactions.amount t)
    /\ instances (accounts s') !! account t
       = Some {| pk := pk i; attrs := a' |}
    /\ current_balance a' == b
    /\ account_table (accounts s') !! pk i = Some a''
    /\ column_keeps b (current_balance a'')
    /\ transaction_table s' !! Transactions.id t = Some row
    /\ account row = pk i
    /\ transaction_type row = transaction_type t
    /\ status row = status t
    /\ column_keeps (Transactions.amount t) (Transactions.amount row)
    /\ (exists e' : Q, effective_amount row = Some e' /\ column_keeps e e')
    /\ (exists b' : Q, balance_after row = Some b' /\ column_keeps b b')
    /\ (forall k : Z,
          k <> pk i ->
          account_table (accounts s') !! k = account_table (accounts s) !! k)
    /\ (forall j : Z,
          j <> Transactions.id t ->
          transaction_table s' !! j = transaction_table s !! j)
    /\ transfer_table (accounts s') = transfer_table (accounts s)
    /\ transfer_seq (accounts s') = transfer_seq (accounts s)
    /\ Transactions.id t' = Transactions.id t
    /\ Transactions.amount t' = Transactions.amount t
    /\ transaction_type t' = transaction_type t
    /\ status t' = status t.
Proof.
  intros Hi. rewrite (Transaction_save_run t i s Hi).
  eexists _, _, _, _, _, _, _. split; [reflexivity |].
  split; [reflexivity |]. split; [reflexivity |].
  split; [reflexivity |].
  split.
  { unfold moved. destruct (String.eqb (transaction_type t) "income");
      reflexivity. }
  split; [cbn; apply lookup_insert_eq |].
  split; [reflexivity |].
  split; [cbn; apply lookup_insert_eq |].
  split; [apply column_keeps_refl |].
  split; [cbn; apply lookup_insert_eq |].
  split; [reflexivity |]. split; [reflexivity |]. split; [reflexivity |].
  split; [apply column_keeps_refl |].
  split; [eexists; split; [reflexivity | apply column_keeps_refl] |].
  split; [eexists; split; [reflexivity | apply column_keeps_refl] |].
  split.
  { intros k Hk. cbn. apply lookup_insert_ne. congruence. }
  split.
  { intros j Hj. cbn. apply lookup_insert_ne. congruence. }
  repeat split; reflexivity.
Qed.

Lemma recording_touches_one_account_witness :
  exists (t' : Transaction loc) (s' : Transactions.State) (a'' : Account)
         (b : Q),
    Transaction_save (built (form_30 "expense" "completed") 0%nat)
      books_100_loaded = (Ok t', s')
    /\ balance_after t' = Some b
    /\ b == 70
    /\ account_table (accounts s') !! 1%Z = Some a''
    /\ column_keeps b (current_balance a'')
    /\ Transactions.amount t' = 30.
Proof.
  destruct (recording_touches_one_account
              (built (form_30 "expense" "completed") 0%nat)
              {| pk := 1; attrs := account_with 100 100 |}
              books_100_loaded)
    as (t' & s' & a' & a'' & row & b & e & E & _ & _ & Hb & Hbv & _ & _
        & Ta & Ka & H).
  - reflexivity.
  - exists t', s', a'', b.
    split; [exact E |]. split; [exact Hb |].
    split; [rewrite Hbv; reflexivity |].
    split; [exact Ta |]. split; [exact Ka |].
    apply H.
Defined.

(** A valid form stays valid after a recording: the account is still
    there. *)
Lemma valid_after_recording (d d' : TransactionData) (s : Transactions.State)
    (a : Account) :
  TransactionForm_is_valid d s = true ->
  account_table (accounts s) !! data_account d = Some a ->
  TransactionForm_is_valid d' s = true ->
  TransactionForm_is_valid d' (snd (TransactionAdmin_add_view d s)) = true.
Proof.
  intros Hv Ha Hv'.
  rewrite (TransactionAdmin_add_view_run d s a Hv Ha). cbn [snd].
  apply TransactionForm_is_valid_spec in Hv'.
  destruct Hv' as (H1 & H2 & H3 & H4 & H5).
  apply TransactionForm_is_valid_spec. repeat split; try assumption.
  cbn. destruct (decide (data_account d = data_account d')) as [E | E].
  - rewrite E, lookup_insert_eq. eauto.
  - rewrite lookup_insert_ne by exact E. exact H4.
Qed.

(** Two valid forms on one account under different ids, one after the
    other. *)
Lemma recording_twice_run (d1 d2 : TransactionData) (s : Transactions.State)
    (a : Account) :
  data_account d1 = data_account d2 ->
  data_id d1 <> data_id d2 ->
  TransactionForm_is_valid d1 s = true ->
  TransactionForm_is_valid d2 s = true ->
  account_table (accounts s) !! data_account d1 = Some a ->
  exists (t1 t2 : Transaction loc) (s1 s2 : Transactions.State),
    TransactionAdmin_add_view d1 s = (Ok t1, s1)
    /\ TransactionAdmin_add_view d2 s1 = (Ok t2, s2)
    /\ account_table (accounts s2) !! data_account d1
       = Some (moved (data_transaction_type d2) (Transactions.data_amount d2)
                 (moved (data_transaction_type d1)
                    (Transactions.data_amount d1) a))
    /\ transaction_table s2 !! data_id d1
       = Some (Transactions.to_row (data_account d1) t1)
    /\ transaction_table s2 !! data_id d2
       = Some (Transactions.to_row (data_account d2) t2).
Proof.
  intros Hacc Hid Hv1 Hv2 Ha.
  pose proof (valid_after_recording d1 d2 s a Hv1 Ha Hv2) as Hv2'.
  pose proof (TransactionAdmin_add_view_run d1 s a Hv1 Ha) as E1.
  cbn zeta in E1. rewrite E1 in Hv2'. cbn [snd] in Hv2'.
  set (a1 := moved (data_transaction_type d1) (Transactions.data_amount d1) a)
    in *.
  set (t1 := stamped (current_balance a1) _) in *.
  set (s1 := set_transaction_table _ _) in *.
  assert (Ha1 : account_table (accounts s1) !! data_account d2 = Some a1).
  { rewrite <- Hacc. cbn. apply lookup_insert_eq. }
  pose proof (TransactionAdmin_add_view_run d2 s1 a1 Hv2' Ha1) as E2.
  cbn zeta in E2.
  eexists t1, _, s1, _. split; [exact E1 |]. split; [exact E2 |].
  split.
  { cbn. rewrite Hacc. apply lookup_insert_eq. }
  split.
  { cbn. rewrite lookup_insert_ne by congruence. apply lookup_insert_eq. }
  cbn. apply lookup_insert_eq.
Qed.

(** Recording is not idempotent: two valid forms on one account under
    different ids move the balance twice and leave two rows, also when
    the two forms are otherwise the same.  The balances of the account
    are taken to be values of their columns before, between and after
    the two recordings, so that each request reads the row the one
    before wrote. *)
Theorem recording_twice_moves_twice (d1 d2 : TransactionData)
    (s : Transactions.State) (a : Account) :
  data_account d1 = data_account d2 ->
  data_id d1 <> data_id d2 ->
  TransactionForm_is_valid d1 s = true ->
  TransactionForm_is_valid d2 s = true ->
  account_table (accounts s) !! data_account d1 = Some a ->
  fits a = true ->
  fits (moved (data_transaction_type d1) (Transactions.data_amount d1) a)
  = true ->
  fits (moved (data_transaction_type d2) (Transactions.data_amount d2)
          (moved (data_transaction_type d1)
             (Transactions.data_amount d1) a)) = true ->
  exists (t1 t2 : Transaction loc) (s1 s2 : Transactions.State),
    TransactionAdmin_add_view d1 s = (Ok t1, s1)
    /\ TransactionAdmin_add_view d2 s1 = (Ok t2, s2)
    /\ account_table (accounts s2) !! data_account d1
       = Some (moved (data_transaction_type d2) (Transactions.data_amount d2)
                 (moved (data_transaction_type d1)
                    (Transactions.data_amount d1) a))
    /\ transaction_table s2 !! data_id d1
       = Some (Transactions.to_row (data_account d1) t1)
    /\ transaction_table s2 !! data_id d2
       = Some (Transactions.to_row (data_account d2) t2).
Proof.
  intros Hacc Hid Hv1 Hv2 Ha _ _ _.
  destruct (recording_twice_run d1 d2 s a Hacc Hid Hv1 Hv2 Ha)
    as (t1 & t2 & s1 & s2 & E1 & E2 & Hb & R1 & R2).
  exists t1, t2, s1, s2. repeat split; assumption.
Qed.

Lemma recording_twice_moves_twice_witness :
  exists (t1 t2 : Transaction loc) (s1 s2 : Transactions.State),
    TransactionAdmin_add_view (form_30 "expense" "completed") books_100
    = (Ok t1, s1)
    /\ TransactionAdmin_add_view (form_30_again "expense" "completed") s1
       = (Ok t2, s2)
    /\ account_table (accounts s2) !! 1%Z
       = Some (moved "expense" 30 (moved "expense" 30 (account_with 100 100)))
    /\ transaction_table s2 !! 7001%Z = Some (Transactions.to_row 1 t1)
    /\ transaction_table s2 !! 7002%Z = Some (Transactions.to_row 1 t2).
Proof.
  apply (recording_twice_moves_twice (form_30 "expense" "completed")
           (form_30_again "expense" "completed") books_100
           (account_with 100 100)).
  - reflexivity.
  - discriminate.
  - vm_compute. reflexivity.
  - vm_compute. reflexivity.
  - vm_compute. reflexivity.
  - vm_compute. reflexivity.
  - vm_compute. reflexivity.
  - vm_compute. reflexivity.
Defined.

(** An expense recorded after an income of the same amount puts the
    balance back where it was.  The balances of the account are taken
    to be values of their columns before and after the income, so that
    the second request reads the row the first wrote. *)
Theorem expense_cancels_income (d1 d2 : TransactionData)
    (s : Transactions.State) (a : Account) :
  data_account d1 = data_account d2 ->
  data_id d1 <> data_id d2 ->
  data_transaction_type d1 = "income" ->
  data_transaction_type d2 = "expense" ->
  Transactions.data_amount d1 == Transactions.data_amount d2 ->
  TransactionForm_is_valid d1 s = true ->
  TransactionForm_is_valid d2 s = true ->
  account_table (accounts s) !! data_account d1 = Some a ->
  fits a = true ->
  fits (credit (Transactions.data_amount d1) a) = true ->
  exists a2 : Account,
    account_table
      (accounts (snd (TransactionAdmin_add_view d2
                        (snd (TransactionAdmin_add_view d1 s)))))
      !! data_account d1 = Some a2
    /\ current_balance a2 == current_balance a
    /\ initial_balance a2 = initial_balance a.
Proof.
  intros Hacc Hid Ht1 Ht2 Hamt Hv1 Hv2 Ha _ _.
  destruct (recording_twice_run d1 d2 s a Hacc Hid Hv1 Hv2 Ha)
    as (t1 & t2 & s1 & s2 & E1 & E2 & Hb & _).
  rewrite E1. cbn [snd]. rewrite E2. cbn [snd].
  eexists. split; [exact Hb |].
  rewrite Ht1, Ht2. unfold moved. cbn. split; [| reflexivity].
  rewrite Hamt. ring.
Qed.

Lemma expense_cancels_income_witness :
  exists a2 : Account,
    account_table
      (accounts
         (snd (TransactionAdmin_add_view (form_30_again "expense" "completed")
                 (snd (TransactionAdmin_add_view
                         (form_30 "income" "completed") books_100)))))
      !! 1%Z = Some a2
    /\ current_balance a2 == 100
    /\ initial_balance a2 = 100.
Proof.
  apply (expense_cancels_income (form_30 "income" "completed")
           (form_30_again "expense" "completed") books_100
           (account_with 100 100)).
  - reflexivity.
  - discriminate.
  - reflexivity.
  - reflexivity.
  - reflexivity.
  - vm_compute. reflexivity.
  - vm_compute. reflexivity.
  - vm_compute. reflexivity.
  - vm_compute. reflexivity.
  - vm_compute. reflexivity.
Defined.

(** For an income or an expense, [balance_after] is the balance before
    plus the effective amount; for any other type the account is debited
    while the effective amount is positive, and it is the balance before
    minus the effective amount. *)
Theorem balance_after_tracks_effective_amount (data : TransactionData)
    (s : Transactions.State) (a : Account) :
  TransactionForm_is_valid data s = true ->
  account_table (accounts s) !! data_account data = Some a ->
  exists (t : Transaction loc) (s' : Transactions.State) (b e : Q),
    TransactionAdmin_add_view data s = (Ok t, s')
    /\ balance_after t = Some b
    /\ effective_amount t = Some e
    /\ (data_transaction_type data = "income"
        \/ data_transaction_type data = "expense" ->
        b == current_balance a + e)
    /\ (data_transaction_type data <> "income" ->
        data_transaction_type data <> "expense" ->
        b == current_balance a - e).
Proof.
  intros Hv Ha.
  rewrite (TransactionAdmin_add_view_run data s a Hv Ha).
  eexists _, _, _, _. split; [reflexivity |].
  split; [reflexivity |]. split; [reflexivity |].
  cbn [built transaction_type Transactions.amount]. unfold moved, signed.
  split.
  - intros [E | E]; rewrite E; cbn; ring.
  - intros H1 H2. apply String.eqb_neq in H1, H2. rewrite H1, H2. cbn. ring.
Qed.

Lemma balance_after_tracks_effective_amount_witness :
  exists (t : Transaction loc) (s' : Transactions.State) (b e : Q),
    TransactionAdmin_add_view (form_30 "expense" "completed") books_100
    = (Ok t, s')
    /\ balance_after t = Some b
    /\ effective_amount t = Some e
    /\ b == 100 + e.
Proof.
  destruct (balance_after_tracks_effective_amount
              (form_30 "expense" "completed") books_100
              (account_with 100 100))
    as (t & s' & b & e & E & Hb & He & H & _).
  - vm_compute. reflexivity.
  - vm_compute. reflexivity.
  - exists t, s', b, e. repeat split; try assumption.
    apply H. right. reflexivity.
Defined.

(** No recording is refused for lack of funds: a valid expense larger
    than the balance is recorded; the instance gets a negative
    [balance_after], the balance before less the amount, and the row of
    the account holds it as far as the column keeps it. *)
Theorem expense_may_overdraw (data : TransactionData)
    (s : Transactions.State) (a : Account) :
  TransactionForm_is_valid data s = true ->
  account_table (accounts s) !! data_account data = Some a ->
  data_transaction_type data = "expense" ->
  current_balance a < Transactions.data_amount data ->
  exists (t : Transaction loc) (s' : Transactions.State) (a' : Account)
         (b : Q),
    TransactionAdmin_add_view data s = (Ok t, s')
    /\ balance_after t = Some b
    /\ b == current_balance a - Transactions.data_amount data
    /\ b < 0
    /\ account_table (accounts s') !! data_account data = Some a'
    /\ column_keeps b (current_balance a').
Proof.
  intros Hv Ha Hty Hlt.
  rewrite (TransactionAdmin_add_view_run data s a Hv Ha).
  eexists _, _, _, _. split; [reflexivity |].
  split; [reflexivity |].
  assert (E : current_balance
                (moved (data_transaction_type data)
                   (Transactions.data_amount data) a)
              == current_balance a - Transactions.data_amount data).
  { rewrite Hty. unfold moved. cbn. reflexivity. }
  split; [exact E |].
  split; [rewrite E; lra |].
  split; [cbn; apply lookup_insert_eq |].
  apply column_keeps_refl.
Qed.

Lemma expense_may_overdraw_witness :
  exists (t : Transaction loc) (s' : Transactions.State) (a' : Account)
         (b : Q),
    TransactionAdmin_add_view (form_expense 250) books_100 = (Ok t, s')
    /\ balance_after t = Some b
    /\ b == 100 - 250
    /\ b < 0
    /\ account_table (accounts s') !! 1%Z = Some a'
    /\ column_keeps b (current_balance a').
Proof.
  apply (expense_may_overdraw (form_expense 250) books_100
           (account_with 100 100)).
  - vm_compute. reflexivity.
  - vm_compute. reflexivity.
  - reflexivity.
  - reflexivity.
Defined.

End RecordingComposition.

(** ** Instances of one row *)

Section InstanceProperties.

Import Accounts Ledger Scenarios MoreScenarios.

(** Two updates of the balance through one instance add up; through two
    instances loaded from the same row they do not: the later save
    writes the balance its own instance read, and the earlier update is
    lost. *)
Theorem later_instance_overwrites (l1 l2 : loc) (k : Z) (a : Account)
    (x y : Q) (tx ty : string) (s : State) :
  instances s !! l1 = Some {| pk := k; attrs := a |} ->
  instances s !! l2 = Some {| pk := k; attrs := a |} ->
  l1 <> l2 ->
  (exists s' : State,
     (Account_update_balance l1 x tx;; Account_update_balance l1 y ty) s
     = (Ok tt, s')
     /\ account_table s' !! k = Some (moved ty y (moved tx x a)))
  /\ (exists s' : State,
        (Account_update_balance l1 x tx;; Account_update_balance l2 y ty) s
        = (Ok tt, s')
        /\ account_table s' !! k = Some (moved ty y a)).
Proof.
  intros H1 H2 Hne.
  pose proof (Account_update_balance_run l1 _ x tx s H1) as E1.
  cbn [pk attrs] in E1. fold (moved tx x a) in E1.
  set (s1 := written l1 k (moved tx x a) s) in E1.
  split.
  - assert (H1' : instances s1 !! l1
                  = Some {| pk := k; attrs := moved tx x a |})
      by apply written_lookup_same.
    pose proof (Account_update_balance_run l1 _ y ty s1 H1') as E2.
    cbn [pk attrs] in E2. fold (moved ty y (moved tx x a)) in E2.
    eexists. split.
    + rewrite (bind_ok _ _ _ _ _ E1). exact E2.
    + cbn. apply lookup_insert_eq.
  - assert (H2' : instances s1 !! l2 = Some {| pk := k; attrs := a |}).
    { unfold s1. rewrite written_lookup_other by exact Hne. exact H2. }
    pose proof (Account_update_balance_run l2 _ y ty s1 H2') as E2.
    cbn [pk attrs] in E2. fold (moved ty y a) in E2.
    eexists. split.
    + rewrite (bind_ok _ _ _ _ _ E1). exact E2.
    + cbn. apply lookup_insert_eq.
Qed.

Lemma later_instance_overwrites_witness :
  exists s' : State,
    (Account_update_balance 0%nat 30 "income";;
     Account_update_balance 1%nat 50 "income") loaded_twice = (Ok tt, s')
    /\ account_table s' !! 1%Z
       = Some (moved "income" 50 (account_with 100 100)).
Proof.
  apply (proj2 (later_instance_overwrites 0%nat 1%nat 1
                  (account_with 100 100) 30 50 "income" "income"
                  loaded_twice eq_refl eq_refl ltac:(discriminate))).
Defined.

End InstanceProperties.

(** ** Transfers: value, round trip, rate *)

Section TransferComposition.

Import Accounts Ledger Scenarios MoreScenarios.



(** A transfer followed by the transfer back of the converted amount at
    the inverse rate, through the same two objects, puts both balances
    back where they were. *)
Theorem transfer_back_restores_balances (x y : AccountTransfer loc)
    (rx ry : Q) (i j : Instance) (s : State) :
  exchange_rate x = Dec rx ->
  exchange_rate y = Dec ry ->
  from_account x <> to_account x ->
  pk i <> pk j ->
  instances s !! from_account x = Some i ->
  instances s !! to_account x = Some j ->
  from_account y = to_account x ->
  to_account y = from_account x ->
  amount y == amount x * rx ->
  rx * ry == 1 ->
  exists (x' y' : AccountTransfer loc) (s1 s2 : State) (f2 g2 : Account),
    AccountTransfer_save x s = (Ok x', s1)
    /\ AccountTransfer_save y s1 = (Ok y', s2)
    /\ account_table s2 !! pk i = Some f2
    /\ account_table s2 !! pk j = Some g2
    /\ current_balance f2 == current_balance (attrs i)
    /\ current_balance g2 == current_balance (attrs j).
Proof.
  intros Hrx Hry Hl Hk Hi Hj Hf Ht Hamt Hrate.
  destruct (AccountTransfer_save_rows x rx i j s Hrx Hl Hk Hi Hj)
    as (x' & s1 & k & E1 & _ & _ & _ & Ii & Ij & _).
  rewrite <- Hf in Ij. rewrite <- Ht in Ii.
  assert (Hl' : from_account y <> to_account y) by congruence.
  assert (Hk' : pk j <> pk i) by congruence.
  destruct (AccountTransfer_save_rows y ry _ _ s1 Hry Hl'
              (Hk' : pk {| pk := pk j;
                           attrs := credit (amount x * rx) (attrs j) |}
                     <> pk {| pk := pk i;
                              attrs := debit (amount x) (attrs i) |})
              Ij Ii)
    as (y' & s2 & k2 & E2 & _ & _ & _ & _ & _ & Tj & Ti & _).
  cbn [pk attrs] in Tj, Ti.
  exists x', y', s1, s2. eexists _, _.
  split; [exact E1 |]. split; [exact E2 |].
  split; [exact Ti |]. split; [exact Tj |].
  cbn. split.
  - rewrite Hamt.
    assert (E : amount x * rx * ry == amount x * (rx * ry)) by ring.
    rewrite E, Hrate. ring.
  - rewrite Hamt. ring.
Qed.

Lemma transfer_back_restores_balances_witness :
  exists (x' y' : AccountTransfer loc) (s1 s2 : State) (f2 g2 : Account),
    AccountTransfer_save (transfer_of 40 (5 # 10) 0%nat 1%nat) two_loaded
    = (Ok x', s1)
    /\ AccountTransfer_save (transfer_of 20 2 1%nat 0%nat) s1 = (Ok y', s2)
    /\ account_table s2 !! 1%Z = Some f2
    /\ account_table s2 !! 2%Z = Some g2
    /\ current_balance f2 == 70
    /\ current_balance g2 == 0.
Proof.
  apply (transfer_back_restores_balances
           (transfer_of 40 (5 # 10) 0%nat 1%nat)
           (transfer_of 20 2 1%nat 0%nat) (5 # 10) 2
           {| pk := 1; attrs := account_with 70 70 |}
           {| pk := 2; attrs := account_with 0 0 |} two_loaded).
  - reflexivity.
  - reflexivity.
  - discriminate.
  - discriminate.
  - vm_compute. reflexivity.
  - vm_compute. reflexivity.
  - reflexivity.
  - reflexivity.
  - reflexivity.
  - reflexivity.
Defined.

(** [AccountTransfer.save] does not look at the sign of a decimal
    exchange rate: with a positive amount the object behind
    [from_account] holds less than before, and so does the object behind
    [to_account] when the rate is negative; at rate zero it holds what it
    held.  Both rows are written with what the objects hold, as far as
    the columns keep it. *)
Theorem negative_rate_debits_both (x : AccountTransfer loc) (r : Q)
    (i j : Instance) (s : State) :
  exchange_rate x = Dec r ->
  from_account x <> to_account x ->
  pk i <> pk j ->
  instances s !! from_account x = Some i ->
  instances s !! to_account x = Some j ->
  0 < amount x ->
  exists (x' : AccountTransfer loc) (s' : State) (c : Q)
         (f g f' g' : Account),
    AccountTransfer_save x s = (Ok x', s')
    /\ converted_amount x' = Some c
    /\ (r < 0 -> c < 0)
    /\ instances s' !! from_account x = Some {| pk := pk i; attrs := f |}
    /\ instances s' !! to_account x = Some {| pk := pk j; attrs := g |}
    /\ current_balance f < current_balance (attrs i)
    /\ (r < 0 -> current_balance g < current_balance (attrs j))
    /\ (r == 0 -> current_balance g == current_balance (attrs j))
    /\ account_table s' !! pk i = Some f'
    /\ column_keeps (current_balance f) (current_balance f')
    /\ account_table s' !! pk j = Some g'
    /\ column_keeps (current_balance g) (current_balance g').
Proof.
  intros Hr Hl Hk Hi Hj Hpos.
  destruct (AccountTransfer_save_rows x r i j s Hr Hl Hk Hi Hj)
    as (x' & s' & k & E & Hc & _ & _ & Ii & Ij & Ti & Tj & _).
  exists x', s', (amount x * r). eexists _, _, _, _.
  split; [exact E |]. split; [exact Hc |].
  split; [intros Hneg; nra |].
  split; [exact Ii |]. split; [exact Ij |].
  split; [cbn; lra |].
  split; [intros Hneg; cbn; nra |].
  split; [intros H0; cbn; rewrite H0; ring |].
  split; [exact Ti |]. split; [apply column_keeps_refl |].
  split; [exact Tj |]. apply column_keeps_refl.
Qed.

Lemma negative_rate_debits_both_witness :
  exists (x' : AccountTransfer loc) (s' : State) (c : Q) (f g : Account),
    AccountTransfer_save (transfer_of 50 (-1) 0%nat 1%nat) two_loaded
    = (Ok x', s')
    /\ converted_amount x' = Some c
    /\ c < 0
    /\ instances s' !! 0%nat = Some {| pk := 1; attrs := f |}
    /\ instances s' !! 1%nat = Some {| pk := 2; attrs := g |}
    /\ current_balance f < 70
    /\ current_balance g < 0.
Proof.
  destruct (negative_rate_debits_both (transfer_of 50 (-1) 0%nat 1%nat) (-1)
              {| pk := 1; attrs := account_with 70 70 |}
              {| pk := 2; attrs := account_with 0 0 |} two_loaded)
    as (x' & s' & c & f & g & f' & g' & E & Hc & Hneg & If & Ig & H1 & H2
        & _).
  - reflexivity.
  - discriminate.
  - discriminate.
  - vm_compute. reflexivity.
  - vm_compute. reflexivity.
  - reflexivity.
  - exists x', s', c, f, g. repeat split; try assumption.
    + apply Hneg. reflexivity.
    + apply H2. reflexivity.
Defined.

End TransferComposition.

(** ** accounts/admin.py: recalculate_balances *)

Section Recalculation.

Import Accounts Transactions AccountsAdmin Ledger Recount Scenarios
  MoreScenarios.

Lemma recalculate_balance_run (l : loc) (i : Instance)
    (s : Transactions.State) :
  instances (accounts s) !! l = Some i ->
  recalculate_balance l s
  = (Ok tt,
     set_accounts
       (written l (pk i) (recounted (pk i) (transaction_table s) (attrs i))
          (accounts s)) s).
Proof.
  intros Hi. unfold recalculate_balance.
  rewrite (bind_ok _ _ _ _ _ (in_accounts_run _ s _ _ (deref_run l i _ Hi))).
  rewrite bind_run. cbn [get].
  assert (E : set_accounts (accounts s) s = s) by (destruct s; reflexivity).
  rewrite E.
  rewrite (bind_ok _ _ _ _ _
             (in_accounts_run _ s _ _
                (setattr_current_balance_run l i _ _ Hi))).
  set (i' := {| pk := pk i; attrs := _ |}).
  set (s1 := set_accounts _ s).
  assert (Hi' : instances (accounts s1) !! l = Some i')
    by (cbn; apply lookup_insert_eq).
  rewrite (in_accounts_run _ s1 _ _ (Account_save_run l i' _ Hi')).
  unfold s1, i', recounted, recomputed, written, set_accounts,
    set_account_table, set_instances. cbn. reflexivity.
Qed.

Lemma recounted_twice (k : Z) (m : gmap Z (Transaction Z)) (a : Account) :
  recounted k m (recounted k m a) = recounted k m a.
Proof. reflexivity. Qed.

(** The action on a selection of existing accounts: it succeeds, the
    rows of the selected accounts take the recomputed balance, and
    nothing else is written. *)
Lemma recalculate_balances_rows (queryset : list Z) :
  forall s : Transactions.State,
    (forall k : Z,
       k ∈ queryset -> is_Some (account_table (accounts s) !! k)) ->
    exists s' : Transactions.State,
      recalculate_balances queryset s = (Ok tt, s')
      /\ transaction_table s' = transaction_table s
      /\ transfer_table (accounts s') = transfer_table (accounts s)
      /\ (forall k : Z,
            account_table (accounts s') !! k
            = (if bool_decide (k ∈ queryset)
               then recounted k (transaction_table s)
               else fun a => a) <$> account_table (accounts s) !! k).
Proof.
  induction queryset as [| k0 rest IH]; intros s Hall.
  - exists s. split; [reflexivity |]. split; [reflexivity |].
    split; [reflexivity |]. intros k.
    rewrite bool_decide_eq_false_2 by (apply not_elem_of_nil).
    destruct (account_table (accounts s) !! k); reflexivity.
  - destruct (Hall k0 (list_elem_of_here _ _)) as [a0 Ha0].
    cbn [recalculate_balances].
    rewrite (bind_ok _ _ _ _ _
               (in_accounts_run _ s _ _ (Account_objects_get_run k0 a0 _ Ha0))).
    set (l := fresh (dom (instances (accounts s)))).
    set (s1 := set_accounts (loaded k0 a0 (accounts s)) s).
    assert (Hl : instances (accounts s1) !! l
                 = Some {| pk := k0; attrs := a0 |})
      by apply loaded_lookup_new.
    rewrite (bind_ok _ _ _ _ _ (recalculate_balance_run l _ s1 Hl)).
    cbn [pk attrs].
    set (m := transaction_table s).
    change (transaction_table s1) with m.
    set (s2 := set_accounts _ s1).
    assert (T2 : forall k : Z,
               account_table (accounts s2) !! k
               = <[k0 := recounted k0 m a0]> (account_table (accounts s)) !! k)
      by reflexivity.
    destruct (IH s2) as (s' & E & Htt & Htr & Hrows).
    { intros k Hk. rewrite T2.
      destruct (decide (k0 = k)) as [<- | N].
      - rewrite lookup_insert_eq. eauto.
      - rewrite lookup_insert_ne by exact N.
        apply Hall. apply list_elem_of_further, Hk. }
    exists s'. split; [exact E |].
    split; [rewrite Htt; reflexivity |].
    split; [rewrite Htr; reflexivity |].
    intros k. rewrite Hrows, T2.
    change (transaction_table s2) with m.
    destruct (decide (k0 = k)) as [<- | N].
    + rewrite lookup_insert_eq, Ha0.
      rewrite (bool_decide_eq_true_2 (k0 ∈ k0 :: rest))
        by apply list_elem_of_here.
      destruct (bool_decide (k0 ∈ rest)); reflexivity.
    + rewrite lookup_insert_ne by exact N.
      assert (B : bool_decide (k ∈ k0 :: rest) = bool_decide (k ∈ rest)).
      { apply bool_decide_ext. rewrite elem_of_cons. split; [| tauto].
        intros [-> | H]; [congruence | exact H]. }
      rewrite B. reflexivity.
Qed.





#[local] Instance Qeq_is_preorder : PreOrder Qeq.
Proof. split; [exact Qeq_refl | exact Qeq_trans]. Qed.

Lemma completed_total_insert (ty : string) (k i : Z) (row : Transaction Z)
    (m : gmap Z (Transaction Z)) :
  m !! i = None ->
  completed_total ty k (<[i := row]> m)
  == (if Z.eqb (Transactions.account row) k
         && String.eqb (Transactions.status row) "completed"
         && String.eqb (transaction_type row) ty
      then completed_total ty k m + Transactions.amount row
      else completed_total ty k m).
Proof.
  intros Hi. unfold completed_total.
  apply (map_fold_insert Qeq
           (fun _ t total =>
              if Z.eqb (Transactions.account t) k
                 && String.eqb (Transactions.status t) "completed"
                 && String.eqb (transaction_type t) ty
              then total + Transactions.amount t else total)).
  - intros j z x y Hxy. destruct (_ && _); rewrite Hxy; reflexivity.
  - intros j1 j2 z1 z2 y _ _ _.
    destruct (Z.eqb (Transactions.account z1) k && _ && _),
      (Z.eqb (Transactions.account z2) k && _ && _); ring.
  - exact Hi.
Qed.

(** Recording a transaction and then recalculating.  On an account whose
    balance agreed with the recomputation, the action confirms the
    running balance when the transaction is a completed income or
    expense; for every other status, and for the type 'transfer', it
    puts the account back at the balance it had before the recording.
    The balances of the account are taken to be values of their columns
    before and after the recording, so that the action reads the row the
    recording wrote. *)
Theorem recalculation_counts_completed_only (data : TransactionData)
    (s : Transactions.State) (a : Account) :
  TransactionForm_is_valid data s = true ->
  account_table (accounts s) !! data_account data = Some a ->
  transaction_table s !! data_id data = None ->
  current_balance a
  == recomputed (data_account data) (transaction_table s) a ->
  fits a = true ->
  fits (moved (data_transaction_type data) (Transactions.data_amount data) a)
  = true ->
  exists (t : Transaction loc) (s1 s2 : Transactions.State)
         (a1 a2 : Account),
    TransactionAdmin_add_view data s = (Ok t, s1)
    /\ recalculate_balances [data_account data] s1 = (Ok tt, s2)
    /\ account_table (accounts s1) !! data_account data = Some a1
    /\ account_table (accounts s2) !! data_account data = Some a2
    /\ (data_status data = "completed" ->
        data_transaction_type data = "income"
        \/ data_transaction_type data = "expense" ->
        current_balance a2 == current_balance a1)
    /\ (data_status data <> "completed"
        \/ data_transaction_type data = "transfer" ->
        current_balance a2 == current_balance a).
Proof.
  intros Hv Ha Hnew Hcons _ _.
  pose proof (TransactionAdmin_add_view_run data s a Hv Ha) as E1.
  cbv zeta in E1.
  set (k := data_account data) in *.
  set (a1 := moved (data_transaction_type data)
               (Transactions.data_amount data) a) in *.
  set (t := stamped (current_balance a1) (built data _)) in *.
  set (row := Transactions.to_row k t) in *.
  set (s1 := set_transaction_table _ _) in E1.
  assert (T1 : account_table (accounts s1) !! k = Some a1)
    by (cbn; apply lookup_insert_eq).
  destruct (recalculate_balances_rows [k] s1)
    as (s2 & E2 & _ & _ & Hrows).
  { intros k' Hk'. apply list_elem_of_singleton in Hk'. subst k'.
    rewrite T1. eauto. }
  specialize (Hrows k). rewrite T1 in Hrows.
  rewrite (bool_decide_eq_true_2 (k ∈ [k])) in Hrows
    by apply list_elem_of_here.
  cbn [fmap option_fmap option_map] in Hrows.
  exists t, s1, s2, a1. eexists.
  split; [exact E1 |]. split; [exact E2 |]. split; [exact T1 |].
  split; [exact Hrows |].
  change (transaction_table s1)
    with (<[data_id data := row]> (transaction_table s)).
  assert (Hinit : initial_balance a1 = initial_balance a).
  { unfold a1, moved. destruct (String.eqb _ "income"); reflexivity. }
  assert (Hin := completed_total_insert "income" k _ row _ Hnew).
  assert (Hex := completed_total_insert "expense" k _ row _ Hnew).
  change (Transactions.account row) with k in Hin, Hex.
  change (Transactions.status row) with (data_status data) in Hin, Hex.
  change (transaction_type row) with (data_transaction_type data) in Hin, Hex.
  change (Transactions.amount row)
    with (Transactions.data_amount data) in Hin, Hex.
  rewrite Z.eqb_refl in Hin, Hex. cbn [andb] in Hin, Hex.
  unfold recomputed in Hcons.
  unfold recounted, recomputed. cbn [current_balance with_current_balance].
  rewrite Hinit, Hin, Hex.
  split.
  - intros Hst Hty. rewrite Hst. cbn [String.eqb Ascii.eqb Bool.eqb andb].
    unfold a1, moved.
    destruct Hty as [-> | ->]; cbn; rewrite Hcons; ring.
  - intros [Hst | Hty].
    + apply String.eqb_neq in Hst. rewrite Hst. cbn [andb].
      rewrite Hcons. ring.
    + rewrite Hty. rewrite !andb_false_r.
      rewrite Hcons. ring.
Qed.

Lemma recalculation_counts_completed_only_witness :
  exists (t : Transaction loc) (s1 s2 : Transactions.State)
         (a1 a2 : Account),
    TransactionAdmin_add_view (form_30 "transfer" "completed") books_100
    = (Ok t, s1)
    /\ recalculate_balances [1%Z] s1 = (Ok tt, s2)
    /\ account_table (accounts s1) !! 1%Z = Some a1
    /\ account_table (accounts s2) !! 1%Z = Some a2
    /\ current_balance a2 == 100.
Proof.
  destruct (recalculation_counts_completed_only
              (form_30 "transfer" "completed") books_100
              (account_with 100 100))
    as (t & s1 & s2 & a1 & a2 & E1 & E2 & T1 & T2 & _ & Hback).
  - vm_compute. reflexivity.
  - vm_compute. reflexivity.
  - vm_compute. reflexivity.
  - vm_compute. reflexivity.
  - vm_compute. reflexivity.
  - vm_compute. reflexivity.
  - exists t, s1, s2, a1, a2. repeat split; try assumption.
    apply Hback. right. reflexivity.
Defined.

(** Transfers are not counted by the action.  After a transfer between
    two accounts whose balances agreed with the recomputation,
    recalculating both puts each back at the balance it had before the
    transfer, while the transfer stays on record. *)
Theorem recalculation_erases_transfer (x : AccountTransfer loc) (r : Q)
    (i j : Instance) (s : Transactions.State) :
  exchange_rate x = Dec r ->
  from_account x <> to_account x ->
  pk i <> pk j ->
  instances (accounts s) !! from_account x = Some i ->
  instances (accounts s) !! to_account x = Some j ->
  current_balance (attrs i)
  == recomputed (pk i) (transaction_table s) (attrs i) ->
  current_balance (attrs j)
  == recomputed (pk j) (transaction_table s) (attrs j) ->
  exists (x' : AccountTransfer loc) (s1 s2 : Transactions.State)
         (k : Z) (f1 f2 g2 : Account),
    in_accounts (AccountTransfer_save x) s = (Ok x', s1)
    /\ recalculate_balances [pk i; pk j] s1 = (Ok tt, s2)
    /\ Accounts.id x' = Some k
    /\ is_Some (transfer_table (accounts s2) !! k)
    /\ account_table (accounts s1) !! pk i = Some f1
    /\ current_balance f1 == current_balance (attrs i) - Accounts.amount x
    /\ account_table (accounts s2) !! pk i = Some f2
    /\ account_table (accounts s2) !! pk j = Some g2
    /\ current_balance f2 == current_balance (attrs i)
    /\ current_balance g2 == current_balance (attrs j).
Proof.
  intros Hr Hl Hk Hi Hj Ci Cj.
  destruct (AccountTransfer_save_rows x r i j (accounts s) Hr Hl Hk Hi Hj)
    as (x' & s' & k & E & _ & Hid & Hrow' & _ & _ & Ti & Tj & _).
  assert (Hrow : is_Some (transfer_table s' !! k)) by (rewrite Hrow'; eauto).
  pose proof (in_accounts_run _ s _ _ E) as E1.
  set (s1 := set_accounts s' s) in E1.
  destruct (recalculate_balances_rows [pk i; pk j] s1)
    as (s2 & E2 & _ & Htr & Hrows).
  { intros k' Hk'. apply elem_of_cons in Hk'. destruct Hk' as [-> | Hk'].
    - cbn. rewrite Ti. eauto.
    - apply list_elem_of_singleton in Hk'. subst k'. cbn. rewrite Tj. eauto. }
  pose proof (Hrows (pk i)) as Ri. pose proof (Hrows (pk j)) as Rj.
  rewrite (bool_decide_eq_true_2 (pk i ∈ [pk i; pk j])) in Ri
    by apply list_elem_of_here.
  rewrite (bool_decide_eq_true_2 (pk j ∈ [pk i; pk j])) in Rj
    by apply list_elem_of_further, list_elem_of_here.
  change (account_table (accounts s1)) with (account_table s') in Ri, Rj.
  change (transaction_table s1) with (transaction_table s) in Ri, Rj.
  rewrite Ti in Ri. rewrite Tj in Rj.
  cbn [fmap option_fmap option_map] in Ri, Rj.
  exists x', s1, s2, k. eexists _, _, _.
  split; [exact E1 |]. split; [exact E2 |]. split; [exact Hid |].
  split; [rewrite Htr; exact Hrow |].
  split; [exact Ti |]. split; [cbn; reflexivity |].
  split; [exact Ri |]. split; [exact Rj |].
  unfold recomputed in Ci, Cj.
  unfold recounted, recomputed. cbn.
  split; [rewrite Ci | rewrite Cj]; reflexivity.
Qed.

Lemma recalculation_erases_transfer_witness :
  exists (x' : AccountTransfer loc) (s1 s2 : Transactions.State)
         (k : Z) (f1 f2 g2 : Account),
    in_accounts (AccountTransfer_save (transfer_of 50 (90 # 100) 0%nat 1%nat))
      books_two_loaded = (Ok x', s1)
    /\ recalculate_balances [1%Z; 2%Z] s1 = (Ok tt, s2)
    /\ Accounts.id x' = Some k
    /\ is_Some (transfer_table (accounts s2) !! k)
    /\ account_table (accounts s1) !! 1%Z = Some f1
    /\ current_balance f1 == 70 - 50
    /\ account_table (accounts s2) !! 1%Z = Some f2
    /\ account_table (accounts s2) !! 2%Z = Some g2
    /\ current_balance f2 == 70
    /\ current_balance g2 == 0.
Proof.
  apply (recalculation_erases_transfer
           (transfer_of 50 (90 # 100) 0%nat 1%nat) (90 # 100)
           {| pk := 1; attrs := account_with 70 70 |}
           {| pk := 2; attrs := account_with 0 0 |} books_two_loaded).
  - reflexivity.
  - discriminate.
  - discriminate.
  - vm_compute. reflexivity.
  - vm_compute. reflexivity.
  - vm_compute. reflexivity.
  - vm_compute. reflexivity.
Defined.

End Recalculation.

(** ** transactions/admin.py: the month before *)

Section DateRange.

Import TransactionsAdmin.

(** The value 'last_month' selects the month before the current one:
    the month stays between 1 and 12, and January is followed back into
    December of the year before. *)
Theorem last_month_is_the_month_before (year month : Z) :
  (1 <= month <= 12)%Z ->
  let (last_year, last_month) := DateRangeFilter_last_month year month in
  (1 <= last_month <= 12)%Z
  /\ (last_year * 12 + last_month = year * 12 + month - 1)%Z
  /\ (month = 1%Z -> last_year = (year - 1)%Z /\ last_month = 12%Z).
Proof.
  intros Hm. unfold DateRangeFilter_last_month.
  destruct (Z.gtb_spec month 1); repeat split; lia.
Qed.

Lemma last_month_is_the_month_before_witness :
  DateRangeFilter_last_month 2024 1 = (2023%Z, 12%Z).
Proof.
  pose proof (last_month_is_the_month_before 2024 1 ltac:(lia)) as H.
  destruct (DateRangeFilter_last_month 2024 1) as [y m].
  destruct H as (_ & _ & H). destruct (H eq_refl) as [-> ->]. reflexivity.
Defined.

End DateRange.

(** ** categories/models.py: the full path *)

Section CategoryPaths.

Import Categories.

Lemma lineage_nonempty (table : gmap Z Category) (c : Category)
    (names : list string) :
  lineage table c names -> names <> [].
Proof.
  intros H. destruct H; [discriminate |]. destruct names; discriminate.
Qed.

Lemma append_assoc (s1 s2 s3 : string) :
  ((s1 ++ s2) ++ s3 = s1 ++ (s2 ++ s3))%string.
Proof.
  induction s1 as [| a s1 IH]; [reflexivity |].
  change (String a ((s1 ++ s2) ++ s3) = String a (s1 ++ (s2 ++ s3)))%string.
  rewrite IH. reflexivity.
Qed.

Lemma concat_snoc (sep x : string) (l : list string) :
  l <> [] ->
  String.concat sep (l ++ [x]) = (String.concat sep l ++ sep ++ x)%string.
Proof.
  induction l as [| y l IH]; [congruence |]. intros _.
  destruct l as [| z l].
  - cbn. reflexivity.
  - change (String.concat sep ((y :: z :: l) ++ [x]))
      with (y ++ sep ++ String.concat sep ((z :: l) ++ [x]))%string.
    rewrite IH by discriminate.
    change (String.concat sep (y :: z :: l))
      with (y ++ sep ++ String.concat sep (z :: l))%string.
    rewrite !append_assoc. reflexivity.
Qed.

(** When following [parent] from a category ends at a root, the call
    returns, within any depth that is at least the number of categories
    on the way, the names from the root down joined by ' > '. *)
Theorem full_path_joins_the_lineage (table : gmap Z Category)
    (c : Category) (names : list string) (depth : nat) :
  lineage table c names ->
  (length names <= depth)%nat ->
  Category_get_full_path depth table c
  = Some (Ok (String.concat " > " names)).
Proof.
  intros H. revert depth.
  induction H as [c Hroot | c c' p names Hp Hc' Hl IH]; intros depth Hd.
  - destruct depth as [| d]; [cbn in Hd; lia |].
    cbn. rewrite Hroot. reflexivity.
  - destruct depth as [| d];
      [rewrite length_app in Hd; cbn in Hd; lia |].
    cbn [Category_get_full_path]. rewrite Hp, Hc'.
    rewrite IH by (rewrite length_app in Hd; cbn in Hd; lia).
    rewrite concat_snoc by (eapply lineage_nonempty; exact Hl).
    reflexivity.
Qed.

Lemma full_path_joins_the_lineage_witness :
  Category_get_full_path 5 {[ 1%Z := home; 2%Z := food ]} food
  = Some (Ok "Home > Food").
Proof.
  apply (full_path_joins_the_lineage {[ 1%Z := home; 2%Z := food ]} food
           ([name home] ++ [name food]) 5).
  - apply (lineage_child _ food home 1%Z [name home]).
    + reflexivity.
    + vm_compute. reflexivity.
    + apply lineage_root. reflexivity.
  - cbn. lia.
Defined.

(** When [parent] can be followed for ever, as on a category that is its
    own parent or ancestor, the call returns within no depth. *)
Theorem full_path_of_a_cycle_never_returns (table : gmap Z Category)
    (endless : Category -> Prop) :
  (forall c : Category,
     endless c ->
     exists (p : Z) (c' : Category),
       parent c = Some p /\ table !! p = Some c' /\ endless c') ->
  forall (depth : nat) (c : Category),
    endless c -> Category_get_full_path depth table c = None.
Proof.
  intros Hstep depth.
  induction depth as [| d IH]; intros c Hc; [reflexivity |].
  destruct (Hstep c Hc) as (p & c' & Hp & Hc' & He).
  cbn [Category_get_full_path]. rewrite Hp, Hc', (IH c' He). reflexivity.
Qed.

Lemma full_path_of_a_cycle_never_returns_witness :
  Category_get_full_path 1000 {[ 1%Z := own_parent ]} own_parent = None.
Proof.
  apply (full_path_of_a_cycle_never_returns {[ 1%Z := own_parent ]}
           (fun c => c = own_parent)).
  - intros c ->. exists 1%Z, own_parent.
    split; [reflexivity |]. split; [| reflexivity].
    apply lookup_singleton_eq.
  - reflexivity.
Defined.

End CategoryPaths.
